(** * MapTileDownloader: the tile geometry, the row fetcher and the run

    A shallow embedding of [src/MapTileDownloader.py].

    - Python integers are [Z].
    - A finite Python float is a rational number, so the projected corner
      coordinates handed to the geometry code are [Q]; [int(f)] on a float is
      truncation toward zero ([Z.quot]).  The products [proj * tile_size] are
      taken exactly (they are exact in binary floating point whenever the tile
      size is a power of two, as for the usual 256-pixel tiles).
    - The projection itself uses [sin] and [log]; it is embedded over the real
      numbers [R], the usual idealisation of floating-point code.
    - [requests.get], [cv2.imdecode] and [cv2.imwrite] are external: what they
      answer is an input of the model.  [progressbar.ProgressBar] refuses a
      negative maximum and [np.zeros] a negative dimension.
    - NumPy is modelled at the level of array shapes and index rectangles.
    - The texts given on the command line are lists of 8-bit characters;
      [re.findall] is a backtracking matcher run on the pattern of
      [lat_long], and [float()] of a decimal text is taken to give the number
      written (it gives the nearest double). *)

From Stdlib Require Import ZArith QArith Qround List String Ascii Bool Lia.
From Stdlib Require Import Reals Lra.
Import ListNotations.

Local Open Scope Z_scope.

(** ** Python and NumPy primitives *)

Module Py.

(** [int(f)] for a float [f]: truncation toward zero. *)
Definition int (f : Q) : Z := Z.quot (Qnum f) (Z.pos (Qden f)).

(** [f * n] for a float [f] and an integer [n]. *)
Definition fmul (f : Q) (n : Z) : Q := Qmult f (inject_Z n).

(** [range(a, b)]. *)
Definition range (a b : Z) : list Z :=
  map (fun i => a + Z.of_nat i) (seq 0 (Z.to_nat (b - a))).

(** One bound of a slice [a:b] on an axis of length [len]
    (the step is 1): a negative bound counts from the end, and the result is
    clamped to [0, len]. *)
Definition adjust_index (i len : Z) : Z :=
  if i <? 0 then Z.max 0 (i + len) else Z.min i len.

(** The half-open interval of indices selected by [start:stop]. *)
Definition slice_indices (start stop len : Z) : Z * Z :=
  (adjust_index start len, adjust_index stop len).

(** The number of indices selected by [start:stop]. *)
Definition slice_len (start stop len : Z) : Z :=
  let '(a, b) := slice_indices start stop len in
  if a <? b then b - a else 0.

(** [i] is selected by [start:stop]. *)
Definition in_slice (start stop len i : Z) : Prop :=
  let '(a, b) := slice_indices start stop len in a <= i < b.

(** What a call does: it returns a value or raises. *)
Inductive outcome (A : Type) : Type :=
| Returned (a : A)
| Raised (e : string).
Arguments Returned {A} a.
Arguments Raised {A} e.

Definition bind {A B : Type} (m : outcome A) (k : A -> outcome B) : outcome B :=
  match m with
  | Returned a => k a
  | Raised e => Raised e
  end.

End Py.

Notation "x <- m ;; k" := (Py.bind m (fun x => k))
  (at level 61, m at next level, right associativity).

(** ** NumPy arrays, by shape *)

Module Np.

(** The shape of an array. *)
Definition shape := list Z.

(** [np.zeros(shape)]: a negative dimension raises [ValueError]. *)
Definition zeros (s : shape) : Py.outcome shape :=
  if forallb (fun d => 0 <=? d) s then Py.Returned s
  else Py.Raised "negative dimensions are not allowed".

(** The shape of [a[y0:y1, x0:x1]] for an array of at least two axes. *)
Definition slice2_shape (s : shape) (y0 y1 x0 x1 : Z) : shape :=
  match s with
  | h :: w :: rest => Py.slice_len y0 y1 h :: Py.slice_len x0 x1 w :: rest
  | _ => s
  end.

(** Can a value of shape [src] be broadcast to shape [dst]?  Both shapes are
    given innermost axis first; an axis of the value must have the length of
    the target's axis or length 1, and the value may not have more axes than
    the target unless they have length 1. *)
Fixpoint broadcastable_rev (src dst : list Z) : bool :=
  match src, dst with
  | [], _ => true
  | s :: src', d :: dst' => ((s =? d) || (s =? 1)) && broadcastable_rev src' dst'
  | s :: src', [] => (s =? 1) && broadcastable_rev src' []
  end.

Definition broadcastable (src dst : shape) : bool :=
  broadcastable_rev (rev src) (rev dst).

End Np.

(** ** The outside world *)

(** What [requests.get] followed by [cv2.imdecode(..., IMREAD_UNCHANGED)]
    gives for one tile URL: one of the two calls raises, or there is a
    response (whose status code the program never reads) and the decoder
    gives an array, known here by its shape, or [None]. *)
Inductive fetched : Type :=
| FetchRaised (e : string)
| Fetched (status_code : Z) (tile : option Np.shape).

(** What [cv2.imwrite] does: it raises, or it returns a boolean. *)
Inductive imwrite_result : Type :=
| ImwriteRaised (e : string)
| ImwriteReturned (ok : bool).

(** The tile server, indexed by the [x], [y] and [z] put into the URL
    template, and the encoder. *)
Record World : Type := {
  get : Z -> Z -> Z -> fetched;
  imwrite : imwrite_result
}.

(** ** [MapTileDownloader.get_image_info] *)

Definition get_image_info (w : World) (tx ty zoom : Z) : Py.outcome (Z * Z * Z) :=
  match get w tx ty zoom with
  | FetchRaised e => Py.Raised e
  | Fetched _ tile =>
      match tile with
      | Some shape =>
          match shape with
          | height :: width :: _ =>
              let channels :=
                if 2 <? Z.of_nat (List.length shape) then nth 2 shape 0 else 1 in
              Py.Returned (width, height, channels)
          | _ => Py.Raised "not enough values to unpack"%string
          end
      | None => Py.Returned (256, 256, 1)
      end
  end.

(** ** The geometry computed by [download_map_region] *)

(** The variables of [download_map_region] that [build_row] closes over. *)
Record Geometry : Type := {
  tile_size_x : Z; tile_size_y : Z; tile_channels : Z;
  tl_pixel_x : Z; tl_pixel_y : Z; br_pixel_x : Z; br_pixel_y : Z;
  tl_tile_x : Z; tl_tile_y : Z; br_tile_x : Z; br_tile_y : Z;
  img_w : Z; img_h : Z;
  tiles_total : Z
}.

(** Lines 176-189, from the projected corners and the probed tile size. *)
Definition geometry (tl_proj_x tl_proj_y br_proj_x br_proj_y : Q)
    (size_x size_y channels : Z) : Geometry :=
  let tl_pixel_x := Py.int (Py.fmul tl_proj_x size_x) in
  let tl_pixel_y := Py.int (Py.fmul tl_proj_y size_y) in
  let br_pixel_x := Py.int (Py.fmul br_proj_x size_x) in
  let br_pixel_y := Py.int (Py.fmul br_proj_y size_y) in
  let tl_tile_x := Py.int tl_proj_x in
  let tl_tile_y := Py.int tl_proj_y in
  let br_tile_x := Py.int br_proj_x in
  let br_tile_y := Py.int br_proj_y in
  let img_w := Z.abs (tl_pixel_x - br_pixel_x) in
  let img_h := br_pixel_y - tl_pixel_y in
  {| tile_size_x := size_x; tile_size_y := size_y; tile_channels := channels;
     tl_pixel_x := tl_pixel_x; tl_pixel_y := tl_pixel_y;
     br_pixel_x := br_pixel_x; br_pixel_y := br_pixel_y;
     tl_tile_x := tl_tile_x; tl_tile_y := tl_tile_y;
     br_tile_x := br_tile_x; br_tile_y := br_tile_y;
     img_w := img_w; img_h := img_h;
     tiles_total := (br_tile_x - tl_tile_x + 1) * (br_tile_y - tl_tile_y + 1) |}.

(** The tile columns a row visits, [range(tl_tile_x, br_tile_x + 1)]. *)
Definition tile_range_x (g : Geometry) : list Z :=
  Py.range (tl_tile_x g) (br_tile_x g + 1).

(** The tile rows, [range(tl_tile_y, br_tile_y + 1)]: one thread each. *)
Definition tile_range_y (g : Geometry) : list Z :=
  Py.range (tl_tile_y g) (br_tile_y g + 1).

(** The canvas, [np.zeros((img_h, img_w, tile_channels))]. *)
Definition allocate (g : Geometry) : Py.outcome Np.shape :=
  Np.zeros [img_h g; img_w g; tile_channels g].

(** ** The placement of one tile, lines 229-244 of [build_row] *)

Record Placement : Type := {
  tl_rel_x : Z; tl_rel_y : Z; br_rel_x : Z; br_rel_y : Z;
  img_x_l : Z; img_x_r : Z; img_y_l : Z; img_y_r : Z;
  cr_x_l : Z; cr_x_r : Z; cr_y_l : Z; cr_y_r : Z
}.

Definition place (g : Geometry) (tile_x tile_y : Z) : Placement :=
  let tl_rel_x := tile_x * tile_size_x g - tl_pixel_x g in
  let tl_rel_y := tile_y * tile_size_y g - tl_pixel_y g in
  let br_rel_x := tl_rel_x + tile_size_x g in
  let br_rel_y := tl_rel_y + tile_size_y g in
  {| tl_rel_x := tl_rel_x; tl_rel_y := tl_rel_y;
     br_rel_x := br_rel_x; br_rel_y := br_rel_y;
     img_x_l := Z.max 0 tl_rel_x;
     img_x_r := Z.min (img_w g + 1) br_rel_x;
     img_y_l := Z.max 0 tl_rel_y;
     img_y_r := Z.min (img_h g + 1) br_rel_y;
     cr_x_l := Z.max 0 (- tl_rel_x);
     cr_x_r := tile_size_x g + Z.min 0 (img_w g - br_rel_x);
     cr_y_l := Z.max 0 (- tl_rel_y);
     cr_y_r := tile_size_y g + Z.min 0 (img_h g - br_rel_y) |}.

(** A rectangle of canvas indices: rows [y0, y1) and columns [x0, x1). *)
Record Rect : Type := { y0 : Z; y1 : Z; x0 : Z; x1 : Z }.

Definition in_rect (r : Rect) (y x : Z) : Prop :=
  y0 r <= y < y1 r /\ x0 r <= x < x1 r.

(** A rectangle inside a canvas of [h] rows and [w] columns. *)
Definition inside_canvas (h w : Z) (r : Rect) : Prop :=
  0 <= y0 r /\ y1 r <= h /\ 0 <= x0 r /\ x1 r <= w.

(** The canvas elements that [img[img_y_l:img_y_r, img_x_l:img_x_r]] selects
    in a canvas of [h] rows and [w] columns. *)
Definition dest_rect (h w : Z) (p : Placement) : Rect :=
  let '(ya, yb) := Py.slice_indices (img_y_l p) (img_y_r p) h in
  let '(xa, xb) := Py.slice_indices (img_x_l p) (img_x_r p) w in
  {| y0 := ya; y1 := yb; x0 := xa; x1 := xb |}.

(** The shape of the target [img[img_y_l:img_y_r, img_x_l:img_x_r]]. *)
Definition dest_shape (img : Np.shape) (p : Placement) : Np.shape :=
  Np.slice2_shape img (img_y_l p) (img_y_r p) (img_x_l p) (img_x_r p).

(** The shape of the value [tile[cr_y_l:cr_y_r, cr_x_l:cr_x_r]]. *)
Definition crop_shape (tile : Np.shape) (p : Placement) : Np.shape :=
  Np.slice2_shape tile (cr_y_l p) (cr_y_r p) (cr_x_l p) (cr_x_r p).

(** Line 250: the assignment raises [ValueError] when the cropped tile cannot
    be broadcast to the target, and otherwise writes the target's elements. *)
Definition copy_tile (img tile : Np.shape) (p : Placement) : Py.outcome Rect :=
  if Np.broadcastable (crop_shape tile p) (dest_shape img p)
  then Py.Returned (dest_rect (nth 0 img 0) (nth 1 img 0) p)
  else Py.Raised "could not broadcast input array".

(** ** [build_row] *)

(** The state the row threads share: the counter [self.tiles_current], the
    values passed to [self.bar.update] (latest first) and the rectangles of
    the canvas written so far (latest first). *)
Record State : Type := {
  tiles_current : Z;
  bar_updates : list Z;
  written : list Rect
}.

Definition report (st : State) : State :=
  {| tiles_current := tiles_current st + 1;
     bar_updates := (tiles_current st + 1) :: bar_updates st;
     written := written st |}.

Definition record_write (r : Rect) (st : State) : State :=
  {| tiles_current := tiles_current st;
     bar_updates := bar_updates st;
     written := r :: written st |}.

(** The loop of [build_row] over the remaining columns [xs].  An exception
    ends the thread: the columns after it are not visited. *)
Fixpoint build_row_from (w : World) (g : Geometry) (zoom : Z) (img : Np.shape)
    (tile_y : Z) (xs : list Z) (st : State) : State * Py.outcome unit :=
  match xs with
  | [] => (st, Py.Returned tt)
  | tile_x :: xs' =>
      match get w tile_x tile_y zoom with
      | FetchRaised e => (st, Py.Raised e)
      | Fetched _ None => build_row_from w g zoom img tile_y xs' st
      | Fetched _ (Some tile) =>
          let p := place g tile_x tile_y in
          let st := report st in
          match copy_tile img tile p with
          | Py.Returned r =>
              build_row_from w g zoom img tile_y xs' (record_write r st)
          | Py.Raised e => (st, Py.Raised e)
          end
      end
  end.

Definition build_row (w : World) (g : Geometry) (zoom : Z) (img : Np.shape)
    (tile_y : Z) (st : State) : State * Py.outcome unit :=
  build_row_from w g zoom img tile_y (tile_range_x g) st.

(** Lines 254-260: one thread per row, all joined.  The rows are run here one
    after the other, in the order they are started; an exception in a thread
    ends that thread only. *)
Fixpoint run_rows (w : World) (g : Geometry) (zoom : Z) (img : Np.shape)
    (ys : list Z) (st : State) : State :=
  match ys with
  | [] => st
  | tile_y :: ys' =>
      run_rows w g zoom img ys' (fst (build_row w g zoom img tile_y st))
  end.

(** ** [download_map_region] and [main] *)

Definition initial_state : State :=
  {| tiles_current := 0; bar_updates := []; written := [] |}.

(** What a completed run leaves behind. *)
Record Run : Type := {
  run_geometry : Geometry;
  run_img : Np.shape;
  run_state : State;
  run_printed : list string
}.

Definition newline : Ascii.ascii := Ascii.ascii_of_nat 10.

(** Lines 263-269: an exception of the encoder is printed and swallowed; the
    boolean it returns is not looked at. *)
Definition save (w : World) : list string :=
  match imwrite w with
  | ImwriteRaised e => [String.append "Error:" (String newline e)]
  | ImwriteReturned _ => ["Done."%string]
  end.

(** Line 192, [progressbar.ProgressBar(maxval=self.tiles_total)]: a maximum
    below the bar's minimum, 0, raises [ValueError]. *)
Definition progress_bar (maxval : Z) : Py.outcome unit :=
  if maxval <? 0
  then Py.Raised "Max value needs to be bigger than the min value"
  else Py.Returned tt.

(** [download_map_region], from the two projected corners (the results of
    [lat_lon_to_tile_coords], as floats): the probe, the geometry, the
    progress bar, the canvas, the rows and the encoder, in that order. *)
Definition download_map_region (w : World)
    (tl_proj_x tl_proj_y br_proj_x br_proj_y : Q) (zoom : Z) : Py.outcome Run :=
  info <- get_image_info w (Py.int tl_proj_x) (Py.int tl_proj_y) zoom ;;
  let '(size_x, size_y, channels) := info in
  let g := geometry tl_proj_x tl_proj_y br_proj_x br_proj_y size_x size_y channels in
  bar <- progress_bar (tiles_total g) ;;
  img <- allocate g ;;
  let st := run_rows w g zoom img (tile_range_y g) initial_state in
  Py.Returned {| run_geometry := g; run_img := img; run_state := st;
                 run_printed := save w |}.

(** [main], after the arguments are parsed and the corners projected (any
    exception there is caught like the ones below): the printed error
    messages and the exit status. *)
Definition main (w : World) (tl_proj_x tl_proj_y br_proj_x br_proj_y : Q)
    (zoom : Z) : list string * Z :=
  match download_map_region w tl_proj_x tl_proj_y br_proj_x br_proj_y zoom with
  | Py.Returned r => (run_printed r, 0)
  | Py.Raised e => ([String.append "Error: " e], 1)
  end.

(** ** [lat_lon_to_tile_coords], over the reals *)

Module Projection.
Local Open Scope R_scope.

(** [scale = 1 << zoom]. *)
Definition scale (zoom : Z) : Z := Z.shiftl 1 zoom.

Definition lat_lon_to_tile_coords (lat lon scale : R) : R * R :=
  let siny := sin (lat * PI / 180) in
  let siny := Rmin (Rmax siny (- 0.9999)) 0.9999 in
  let x := scale * (0.5 + lon / 360) in
  let y := scale * (0.5 - ln ((1 + siny) / (1 - siny)) / (4 * PI)) in
  (x, y).

(** The clamped sine of a latitude, as computed on lines 161-162. *)
Definition clamped_siny (lat : R) : R :=
  Rmin (Rmax (sin (lat * PI / 180)) (- 0.9999)) 0.9999.

(** The largest value of [ln ((1 + siny) / (1 - siny))] the clamp allows. *)
Definition ln_bound : R := ln 19999.

End Projection.

(** ** The specification's wording, for comparison *)

(** The pixel origin as the specification words it: the top-left tile's
    index times the tile size. *)
Definition spec_pixel_origin (tl_proj_x tl_proj_y : Q) (size_x size_y : Z) : Z * Z :=
  (Qfloor tl_proj_x * size_x, Qfloor tl_proj_y * size_y).

(** The pixel origin the code subtracts on lines 229-230. *)
Definition pixel_origin (g : Geometry) : Z * Z := (tl_pixel_x g, tl_pixel_y g).

(** ** Stub servers and concrete requests *)

Module Stub.

(** A server whose every tile decodes to a 256x256 image of 3 channels. *)
Definition colour : World :=
  {| get := fun _ _ _ => Fetched 200 (Some [256; 256; 3]);
     imwrite := ImwriteReturned true |}.

(** The same server, with an encoder that raises. *)
Definition unwritable : World :=
  {| get := fun _ _ _ => Fetched 200 (Some [256; 256; 3]);
     imwrite := ImwriteRaised "could not find a writer for the specified extension" |}.

(** A server that cannot be reached: the request raises. *)
Definition unreachable : World :=
  {| get := fun _ _ _ => FetchRaised "Connection refused";
     imwrite := ImwriteReturned true |}.

(** A server that answers 500 with a body that is a 512x512 colour image. *)
Definition error_page_image : World :=
  {| get := fun _ _ _ => Fetched 500 (Some [512; 512; 3]);
     imwrite := ImwriteReturned true |}.

(** A server that answers 404 with a body that is no image. *)
Definition not_found : World :=
  {| get := fun _ _ _ => Fetched 404 None;
     imwrite := ImwriteReturned true |}.

(** A server of single-channel tiles, decoded as two-dimensional arrays. *)
Definition grey : World :=
  {| get := fun _ _ _ => Fetched 200 (Some [256; 256]);
     imwrite := ImwriteReturned true |}.

(** Two corners at zoom 1, half a tile into tile (0, 0) and 0.6 of a tile
    into tile (1, 1), with 256-pixel colour tiles. *)
Definition two_by_two : Geometry :=
  geometry (1 # 2) (1 # 2) (8 # 5) (8 # 5) 256 256 3.

(** Two corners north of the Mercator square at zoom 0, as projected from
    (lat 90, lon -144) and (lat 88, lon 0): ordinates -0.28809 and -0.14428,
    to five decimals. *)
Definition polar : Geometry :=
  geometry (1 # 10) (-28809 # 100000) (1 # 2) (-14428 # 100000) 256 256 3.

(** Corners given east to west, two tiles apart, at zoom 2. *)
Definition east_to_west : Geometry :=
  geometry (7 # 2) (1 # 2) (3 # 2) (3 # 5) 256 256 3.

End Stub.

(** ** The tile elements read by a copy *)

(** The tile elements that [tile[cr_y_l:cr_y_r, cr_x_l:cr_x_r]] selects in a
    tile of [h] rows and [w] columns; the assignment on line 250 copies the
    k-th selected row and column of the tile to the k-th selected row and
    column of the canvas. *)
Definition crop_rect (h w : Z) (p : Placement) : Rect :=
  let '(ya, yb) := Py.slice_indices (cr_y_l p) (cr_y_r p) h in
  let '(xa, xb) := Py.slice_indices (cr_x_l p) (cr_x_r p) w in
  {| y0 := ya; y1 := yb; x0 := xa; x1 := xb |}.

(** ** Regular expressions, as [re] runs them *)

Module Re.

(** The constructs the pattern of [lat_long] uses. *)
Inductive regex : Type :=
| Chr (p : ascii -> bool)
| Cat (r1 r2 : regex)
| Alt (r1 r2 : regex)
| Opt (r : regex)
| Star (r : regex).

(** [r+]. *)
Definition Plus (r : regex) : regex := Cat r (Star r).

(** Greedy repetition of [step], at most [n] times, each turn consuming
    at least one character; then the continuation [k]. *)
Fixpoint star (step : list ascii -> (list ascii -> option (list ascii)) -> option (list ascii))
    (k : list ascii -> option (list ascii)) (n : nat) (s : list ascii)
    : option (list ascii) :=
  match n with
  | O => k s
  | S n' =>
      match step s (fun s' => if (List.length s' <? List.length s)%nat
                              then star step k n' s' else None) with
      | Some x => Some x
      | None => k s
      end
  end.

(** The backtracking matcher: [run r s k] matches [r] at the start of [s]
    and hands the rest to [k]; when [k] fails the next way to match [r] is
    tried, the greedy ones first and the left alternative first. *)
Fixpoint run (r : regex) (s : list ascii)
    (k : list ascii -> option (list ascii)) : option (list ascii) :=
  match r with
  | Chr p =>
      match s with
      | c :: s' => if p c then k s' else None
      | [] => None
      end
  | Cat r1 r2 => run r1 s (fun s' => run r2 s' k)
  | Alt r1 r2 =>
      match run r1 s k with
      | Some x => Some x
      | None => run r2 s k
      end
  | Opt r1 =>
      match run r1 s k with
      | Some x => Some x
      | None => k s
      end
  | Star r1 => star (run r1) k (List.length s) s
  end.

(** [re.match]: what is left of [s] after the first way to match [r] at
    its start. *)
Definition match_at (r : regex) (s : list ascii) : option (list ascii) :=
  run r s Some.

(** [re.findall] for a pattern without groups: the matches found scanning
    from the left, each search resuming where the last match ended. *)
Fixpoint findall_from (fuel : nat) (r : regex) (s : list ascii)
    : list (list ascii) :=
  match fuel with
  | O => []
  | S fuel' =>
      match match_at r s with
      | Some rest =>
          let n := (List.length s - List.length rest)%nat in
          match n, s with
          | S _, _ => firstn n s :: findall_from fuel' r rest
          | O, _ :: s' => [] :: findall_from fuel' r s'
          | O, [] => [[]]
          end
      | None =>
          match s with
          | _ :: s' => findall_from fuel' r s'
          | [] => []
          end
      end
  end.

Definition findall (r : regex) (s : list ascii) : list (list ascii) :=
  findall_from (S (List.length s)) r s.

End Re.

(** What a regular expression matches, whatever the order in which the
    matcher tries. *)
Inductive matches : Re.regex -> list ascii -> Prop :=
| MChr p c : p c = true -> matches (Re.Chr p) [c]
| MCat r1 r2 m1 m2 :
    matches r1 m1 -> matches r2 m2 -> matches (Re.Cat r1 r2) (m1 ++ m2)
| MAltL r1 r2 m : matches r1 m -> matches (Re.Alt r1 r2) m
| MAltR r1 r2 m : matches r2 m -> matches (Re.Alt r1 r2) m
| MOptNone r : matches (Re.Opt r) []
| MOptSome r m : matches r m -> matches (Re.Opt r) m
| MStarNil r : matches (Re.Star r) []
| MStarCons r m1 m2 :
    matches r m1 -> matches (Re.Star r) m2 -> matches (Re.Star r) (m1 ++ m2).


(** ** [lat_long] and the command line *)

(** Texts are lists of 8-bit characters, among which [\d] matches the ten
    digits only. *)
Module Cli.
Local Open Scope char_scope.

Definition is_digit (c : ascii) : bool :=
  (48 <=? nat_of_ascii c)%nat && (nat_of_ascii c <=? 57)%nat.
Definition is_sign (c : ascii) : bool := Ascii.eqb c "+" || Ascii.eqb c "-".
Definition is_dot (c : ascii) : bool := Ascii.eqb c ".".
Definition is_d (c : ascii) : bool := Ascii.eqb c "d".

(** The two alternatives of the pattern of [lat_long]:
    [[+-]?\d*\.\d+] and [d+]. *)
Definition number_pattern : Re.regex :=
  Re.Cat (Re.Opt (Re.Chr is_sign))
    (Re.Cat (Re.Star (Re.Chr is_digit))
       (Re.Cat (Re.Chr is_dot) (Re.Plus (Re.Chr is_digit)))).

Definition d_pattern : Re.regex := Re.Plus (Re.Chr is_d).

(** The pattern [[+-]?\d*\.\d+|d+] of [lat_long]. *)
Definition coordinate_pattern : Re.regex := Re.Alt number_pattern d_pattern.

Definition digit_value (c : ascii) : Z := Z.of_nat (nat_of_ascii c) - 48.

(** The number written by a run of digits, after the digits [acc]. *)
Fixpoint digits_value (acc : Z) (ds : list ascii) : Z :=
  match ds with
  | [] => acc
  | d :: ds' => digits_value (10 * acc + digit_value d) ds'
  end.

(** A leading sign, if any, and what follows it. *)
Definition strip_sign (m : list ascii) : bool * list ascii :=
  match m with
  | c :: m' => if is_sign c then (Ascii.eqb c "-", m') else (false, m)
  | [] => (false, m)
  end.

(** The digits before the first point (after those of [ip], latest first)
    and what follows the point. *)
Fixpoint split_point (ip : list ascii) (s : list ascii)
    : option (list ascii * list ascii) :=
  match s with
  | c :: s' =>
      if is_dot c then Some (rev ip, s')
      else if is_digit c then split_point (c :: ip) s' else None
  | [] => None
  end.

(** The number written with the digits [ip] before the point and [fp]
    after it. *)
Definition decimal_value (negative : bool) (ip fp : list ascii) : Q :=
  let v := (inject_Z (digits_value 0 ip)
            + inject_Z (digits_value 0 fp)
              / inject_Z (10 ^ Z.of_nat (List.length fp)))%Q in
  if negative then Qopp v else v.

(** Is the sign written a minus? *)
Definition negative_sign (sg : list ascii) : bool :=
  match sg with
  | c :: _ => Ascii.eqb c "-"
  | [] => false
  end.

(** [float(m)] for a match [m] of the pattern: a sign or none, digits or
    none, a point and at least one digit give the number written; the other
    matches of the pattern, runs of [d], raise [ValueError]. *)
Definition float_of_match (m : list ascii) : Py.outcome Q :=
  let '(negative, body) := strip_sign m in
  match split_point [] body with
  | Some (ip, fp) =>
      if forallb is_digit fp && negb (Nat.eqb (List.length fp) 0)
      then Py.Returned (decimal_value negative ip fp)
      else Py.Raised "could not convert string to float"
  | None => Py.Raised "could not convert string to float"
  end.

(** [lat_long], lines 281-283. *)
Definition lat_long (data : list ascii) : Py.outcome (Q * Q) :=
  match Re.findall coordinate_pattern data with
  | [lat; lon] =>
      a <- float_of_match lat ;;
      b <- float_of_match lon ;;
      Py.Returned (a, b)
  | [] | [_] => Py.Raised "not enough values to unpack"
  | _ => Py.Raised "too many values to unpack"
  end.

(** [main], lines 285-294, after [parse_args].  [zoom_arg] is what
    [int(args.zoom)] gives, and [project] stands for the floating-point
    evaluation of [lat_lon_to_tile_coords]; [1 << zoom] raises for a
    negative zoom.  Any exception is printed and makes the exit status 1. *)
Definition main_cli (project : Q -> Q -> Z -> Q * Q) (w : World)
    (top_left bot_right : list ascii) (zoom_arg : Py.outcome Z)
    : list string * Z :=
  match (tl <- lat_long top_left ;;
         br <- lat_long bot_right ;;
         zoom <- zoom_arg ;;
         if Z.ltb zoom 0 then Py.Raised "negative shift count"
         else Py.Returned (tl, br, zoom)) with
  | Py.Raised e => ([String.append "Error: " e], 1)
  | Py.Returned ((lat1, lon1), (lat2, lon2), zoom) =>
      let scale := Projection.scale zoom in
      let '(tl_proj_x, tl_proj_y) := project lat1 lon1 scale in
      let '(br_proj_x, br_proj_y) := project lat2 lon2 scale in
      main w tl_proj_x tl_proj_y br_proj_x br_proj_y zoom
  end.

(** A text written as a number with a decimal point. *)
Definition decimal (m : list ascii) : Prop :=
  exists sg ip fp,
    m = sg ++ ip ++ "." :: fp /\
    (sg = [] \/ sg = ["+"] \/ sg = ["-"]) /\
    Forall (fun c => is_digit c = true) ip /\
    Forall (fun c => is_digit c = true) fp /\ fp <> [].

(** A run of the letter d. *)
Definition d_run (m : list ascii) : Prop :=
  m <> [] /\ Forall (fun c => c = "d") m.

(** A character that starts no match and continues none. *)
Definition plain (c : ascii) : bool :=
  negb (is_digit c || is_sign c || is_dot c || is_d c).

End Cli.

(** ** [int()] over the reals *)

Module RealPy.
Local Open Scope R_scope.

(** [int(f)] for the real number a float stands for: truncation toward
    zero. *)
Definition int (f : R) : Z :=
  if Rle_dec 0 f then Int_part f else (- Int_part (- f))%Z.

End RealPy.

(** ** More stub servers *)

Module Servers.

(** A server of 256x256 colour tiles whose tile (0, 0) is missing. *)
Definition first_tile_missing : World :=
  {| get := fun x y _ =>
              if (x =? 0) && (y =? 0) then Fetched 404 None
              else Fetched 200 (Some [256; 256; 3]);
     imwrite := ImwriteReturned true |}.

(** A server of colour tiles with an encoder that cannot write the file and
    returns [False]. *)
Definition write_refused : World :=
  {| get := fun _ _ _ => Fetched 200 (Some [256; 256; 3]);
     imwrite := ImwriteReturned false |}.

(** The 2x2 request of [Stub.two_by_two] with one-channel tiles. *)
Definition two_by_two_grey : Geometry :=
  geometry (1 # 2) (1 # 2) (8 # 5) (8 # 5) 256 256 1.

End Servers.

(** * Properties *)

(** ** Arithmetic of [int()] and of slices *)

Section IntFacts.

Lemma int_nonneg (f : Q) : (0 <= f)%Q -> 0 <= Py.int f.
Proof.
  unfold Py.int, Qle; simpl; intros H.
  apply Z.quot_pos; lia.
Qed.

Lemma int_floor (f : Q) : (0 <= f)%Q -> Py.int f = Qfloor f.
Proof.
  destruct f as [n d]; unfold Py.int, Qle, Qfloor; simpl; intros H.
  apply Z.quot_div_nonneg; lia.
Qed.

Lemma int_ceiling (f : Q) : (f <= 0)%Q -> Py.int f = Qceiling f.
Proof.
  destruct f as [n d]; unfold Py.int, Qle, Qceiling, Qfloor; simpl; intros H.
  replace n with (- - n) at 1 by lia.
  rewrite Z.quot_opp_l by lia.
  rewrite Z.quot_div_nonneg by lia. reflexivity.
Qed.

Lemma int_mono (f1 f2 : Q) : (f1 <= f2)%Q -> Py.int f1 <= Py.int f2.
Proof.
  intros H.
  destruct (Qlt_le_dec f1 0) as [N1 | P1], (Qlt_le_dec f2 0) as [N2 | P2].
  - rewrite !int_ceiling by (apply Qlt_le_weak; assumption).
    apply Qceiling_resp_le; assumption.
  - rewrite int_ceiling by (apply Qlt_le_weak; assumption).
    pose proof (int_nonneg f2 P2).
    pose proof (Qceiling_resp_le f1 0 (Qlt_le_weak _ _ N1)) as C.
    change (Qceiling 0) with 0 in C. lia.
  - exfalso. apply (Qlt_irrefl 0).
    apply Qle_lt_trans with f2; [apply Qle_trans with f1|]; assumption.
  - rewrite !int_floor by assumption. apply Qfloor_resp_le; assumption.
Qed.

(** Scaling by a positive integer before or after truncation: the two
    differ by less than the factor, on the side of the sign. *)
Lemma quot_scale_nonneg (n d t : Z) :
  0 < d -> 0 < t -> 0 <= n ->
  (n ÷ d) * t <= (n * t) ÷ d < (n ÷ d + 1) * t.
Proof.
  intros Hd Ht Hn.
  rewrite !Z.quot_div_nonneg by nia.
  pose proof (Z.div_mod n d ltac:(lia)) as E.
  pose proof (Z.mod_pos_bound n d Hd) as B.
  set (q := n / d) in *. set (r := n mod d) in *.
  replace (n * t) with (q * t * d + r * t) by (rewrite E at 1; ring).
  rewrite Z.div_add_l by lia.
  assert (0 <= r * t / d < t).
  { split; [apply Z.div_pos; nia|].
    apply Z.div_lt_upper_bound; nia. }
  lia.
Qed.

Lemma quot_scale_nonpos (n d t : Z) :
  0 < d -> 0 < t -> n <= 0 ->
  (n ÷ d - 1) * t < (n * t) ÷ d <= (n ÷ d) * t.
Proof.
  intros Hd Ht Hn.
  pose proof (quot_scale_nonneg (- n) d t Hd Ht ltac:(lia)) as H.
  rewrite Z.mul_opp_l, !Z.quot_opp_l in H by lia.
  lia.
Qed.

Lemma int_fmul_nonneg (f : Q) (t : Z) :
  0 < t -> (0 <= f)%Q ->
  Py.int f * t <= Py.int (Py.fmul f t) < (Py.int f + 1) * t.
Proof.
  destruct f as [n d]; unfold Py.int, Py.fmul, Qle; simpl; intros Ht H.
  rewrite Pos.mul_1_r.
  apply quot_scale_nonneg; lia.
Qed.

Lemma int_fmul_nonpos (f : Q) (t : Z) :
  0 < t -> (f <= 0)%Q ->
  (Py.int f - 1) * t < Py.int (Py.fmul f t) <= Py.int f * t.
Proof.
  destruct f as [n d]; unfold Py.int, Py.fmul, Qle; simpl; intros Ht H.
  rewrite Pos.mul_1_r.
  apply quot_scale_nonpos; lia.
Qed.

(** Whatever the sign, the first tile starts less than one tile away from
    the pixel origin. *)
Lemma int_fmul_near (f : Q) (t : Z) :
  0 < t -> - t < Py.int f * t - Py.int (Py.fmul f t) < t.
Proof.
  intros Ht.
  destruct (Qlt_le_dec f 0) as [N | P].
  - pose proof (int_fmul_nonpos f t Ht (Qlt_le_weak _ _ N)). lia.
  - pose proof (int_fmul_nonneg f t Ht P). lia.
Qed.

Lemma fmul_mono (f1 f2 : Q) (t : Z) :
  0 <= t -> (f1 <= f2)%Q -> (Py.fmul f1 t <= Py.fmul f2 t)%Q.
Proof.
  intros Ht H. unfold Py.fmul.
  apply Qmult_le_compat_r; [assumption|].
  unfold Qle; simpl; lia.
Qed.

Lemma in_range (a b i : Z) : In i (Py.range a b) <-> a <= i < b.
Proof.
  unfold Py.range. rewrite in_map_iff. split.
  - intros [k [E K]]. apply in_seq in K. lia.
  - intros H. exists (Z.to_nat (i - a)). split; [lia|].
    apply in_seq. lia.
Qed.

Lemma range_length (a b : Z) :
  Z.of_nat (List.length (Py.range a b)) = Z.max 0 (b - a).
Proof.
  unfold Py.range. rewrite length_map, length_seq. lia.
Qed.

End IntFacts.

(** ** Slices along one axis *)

Section Axis.

Ltac axis_cases :=
  unfold Py.in_slice, Py.slice_len, Py.slice_indices, Py.adjust_index;
  repeat (match goal with
  | |- context [Z.max ?a ?b] =>
      destruct (Z.max_spec a b) as [[? ->] | [? ->]]
  | |- context [Z.min ?a ?b] =>
      destruct (Z.min_spec a b) as [[? ->] | [? ->]]
  | |- context [if ?a <? ?b then _ else _] =>
      destruct (Z.ltb_spec a b)
  | H : context [if _ then _ else _] |- _ => revert H
  end; try lia); try lia.

(** The target slice and the crop select the same number of indices when
    the tile starts less than a tile before the canvas and not after its
    end. *)
Lemma axis_lengths_agree (rel t len : Z) :
  0 < t -> 0 <= len -> - t < rel <= len ->
  Py.slice_len (Z.max 0 rel) (Z.min (len + 1) (rel + t)) len =
  Py.slice_len (Z.max 0 (- rel)) (t + Z.min 0 (len - (rel + t))) t.
Proof.
  intros Ht Hlen Hrel. axis_cases.
Qed.

(** The target slice stays inside the axis. *)
Lemma axis_in_bounds (rel t len : Z) :
  0 < t -> 0 <= len -> - t < rel <= len ->
  0 <= Py.adjust_index (Z.max 0 rel) len
    <= Py.adjust_index (Z.min (len + 1) (rel + t)) len
  /\ Py.adjust_index (Z.min (len + 1) (rel + t)) len <= len.
Proof.
  intros Ht Hlen Hrel. axis_cases.
Qed.

(** Two tiles a whole tile apart select disjoint target indices. *)
Lemma axis_disjoint (rel1 rel2 t len i : Z) :
  0 <= len -> - t < rel1 -> rel1 + t <= rel2 ->
  Py.in_slice (Z.max 0 rel1) (Z.min (len + 1) (rel1 + t)) len i ->
  ~ Py.in_slice (Z.max 0 rel2) (Z.min (len + 1) (rel2 + t)) len i.
Proof.
  intros Hlen H1 H2.  axis_cases.
Qed.
End Axis.

(** ** Where the tiles of the planned range fall *)

Section Placement.

Variables tl_proj_x tl_proj_y br_proj_x br_proj_y : Q.
Variables size_x size_y channels : Z.

Let g := geometry tl_proj_x tl_proj_y br_proj_x br_proj_y size_x size_y channels.

Hypothesis size_x_pos : 0 < size_x.
Hypothesis size_y_pos : 0 < size_y.

(** A tile of the range starts less than one tile before the pixel
    origin, whatever the sign of the projected corner. *)
Lemma rel_x_lower (tile_x tile_y : Z) :
  In tile_x (tile_range_x g) -> - size_x < tl_rel_x (place g tile_x tile_y).
Proof.
  unfold tile_range_x. rewrite in_range. simpl. intros H.
  pose proof (int_fmul_near tl_proj_x size_x size_x_pos). nia.
Qed.

Lemma rel_y_lower (tile_x tile_y : Z) :
  In tile_y (tile_range_y g) -> - size_y < tl_rel_y (place g tile_x tile_y).
Proof.
  unfold tile_range_y. rewrite in_range. simpl. intros H.
  pose proof (int_fmul_near tl_proj_y size_y size_y_pos). nia.
Qed.

(** A tile of the range does not start after the canvas, when the
    bottom-right corner projects to non-negative coordinates. *)
Lemma rel_x_upper (tile_x tile_y : Z) :
  (0 <= br_proj_x)%Q ->
  In tile_x (tile_range_x g) -> tl_rel_x (place g tile_x tile_y) <= img_w g.
Proof.
  unfold tile_range_x. rewrite in_range. simpl. intros P H.
  pose proof (int_fmul_nonneg br_proj_x size_x size_x_pos P). nia.
Qed.

Lemma rel_y_upper (tile_x tile_y : Z) :
  (0 <= br_proj_y)%Q ->
  In tile_y (tile_range_y g) -> tl_rel_y (place g tile_x tile_y) <= img_h g.
Proof.
  unfold tile_range_y. rewrite in_range. simpl. intros P H.
  pose proof (int_fmul_nonneg br_proj_y size_y size_y_pos P). nia.
Qed.

End Placement.

Lemma allocate_shape (g : Geometry) (img : Np.shape) :
  allocate g = Py.Returned img ->
  img = [img_h g; img_w g; tile_channels g]
  /\ 0 <= img_h g /\ 0 <= img_w g /\ 0 <= tile_channels g.
Proof.
  unfold allocate, Np.zeros. simpl.
  destruct (Z.leb_spec 0 (img_h g)), (Z.leb_spec 0 (img_w g)),
    (Z.leb_spec 0 (tile_channels g)); simpl; intros E; inversion E; auto.
Qed.

(** A second corner not north of the first gives a height the allocation
    accepts. *)
Lemma img_h_nonneg (tl_proj_x tl_proj_y br_proj_x br_proj_y : Q)
    (size_x size_y channels : Z) :
  0 <= size_y -> (tl_proj_y <= br_proj_y)%Q ->
  0 <= img_h (geometry tl_proj_x tl_proj_y br_proj_x br_proj_y size_x size_y channels).
Proof.
  intros Hs Ho. simpl.
  pose proof (int_mono _ _ (fmul_mono _ _ size_y Hs Ho)). lia.
Qed.

Lemma broadcastable_refl (s : Np.shape) : Np.broadcastable s s = true.
Proof.
  unfold Np.broadcastable. induction (rev s) as [| d l IH]; simpl; [reflexivity|].
  rewrite Z.eqb_refl, IH. reflexivity.
Qed.

Lemma range_NoDup (a b : Z) : NoDup (Py.range a b).
Proof.
  unfold Py.range. generalize 0%nat as k.
  induction (Z.to_nat (b - a)) as [| n IH]; intros k; simpl; constructor.
  - rewrite in_map_iff. intros [j [E J]]. apply in_seq in J. lia.
  - apply IH.
Qed.

(** ** What a run that completes went through *)

(** The allocation succeeds exactly on non-negative dimensions. *)
Lemma allocate_returns (g : Geometry) :
  0 <= img_h g -> 0 <= img_w g -> 0 <= tile_channels g ->
  allocate g = Py.Returned [img_h g; img_w g; tile_channels g].
Proof.
  intros Hh Hw Hc. unfold allocate, Np.zeros. cbn [forallb].
  rewrite (proj2 (Z.leb_le 0 (img_h g)) Hh), (proj2 (Z.leb_le 0 (img_w g)) Hw),
    (proj2 (Z.leb_le 0 (tile_channels g)) Hc).
  reflexivity.
Qed.

Lemma allocate_raises (g : Geometry) :
  img_h g < 0 -> exists e, allocate g = Py.Raised e.
Proof.
  intros Hh. unfold allocate, Np.zeros. cbn [forallb].
  destruct (Z.leb_spec 0 (img_h g)); [lia|]. eexists; reflexivity.
Qed.

Lemma progress_bar_returns (maxval : Z) :
  0 <= maxval -> progress_bar maxval = Py.Returned tt.
Proof.
  intros H. unfold progress_bar. destruct (Z.ltb_spec maxval 0); [lia | reflexivity].
Qed.

Lemma progress_bar_raises (maxval : Z) :
  maxval < 0 -> exists e, progress_bar maxval = Py.Raised e.
Proof.
  intros H. unfold progress_bar. destruct (Z.ltb_spec maxval 0); [| lia].
  eexists; reflexivity.
Qed.

(** A run returns only after the probe returned, the progress bar accepted
    the total and the canvas was allocated. *)
Lemma download_returned (w : World) (tl_proj_x tl_proj_y br_proj_x br_proj_y : Q)
    (zoom : Z) (r : Run) :
  download_map_region w tl_proj_x tl_proj_y br_proj_x br_proj_y zoom
    = Py.Returned r ->
  exists size_x size_y channels,
    get_image_info w (Py.int tl_proj_x) (Py.int tl_proj_y) zoom
      = Py.Returned (size_x, size_y, channels) /\
    let g := geometry tl_proj_x tl_proj_y br_proj_x br_proj_y size_x size_y channels in
    let img := [img_h g; img_w g; channels] in
    0 <= tiles_total g /\ 0 <= img_h g /\ 0 <= img_w g /\ 0 <= channels /\
    r = {| run_geometry := g; run_img := img;
           run_state := run_rows w g zoom img (tile_range_y g) initial_state;
           run_printed := save w |}.
Proof.
  unfold download_map_region.
  destruct (get_image_info w (Py.int tl_proj_x) (Py.int tl_proj_y) zoom)
    as [[[sx sy] ch] | e]; cbn [Py.bind]; [| discriminate].
  set (g := geometry tl_proj_x tl_proj_y br_proj_x br_proj_y sx sy ch).
  unfold progress_bar. destruct (Z.ltb_spec (tiles_total g) 0) as [T | T];
    cbn [Py.bind]; [discriminate|].
  destruct (allocate g) as [img | e] eqn:A; cbn [Py.bind]; [| discriminate].
  destruct (allocate_shape g img A) as (-> & Hh & Hw & Hc).
  intros E. inversion E; subst r; clear E.
  exists sx, sy, ch. split; [reflexivity|]. cbv zeta. fold g.
  repeat split; assumption.
Qed.

(** And it does return then. *)
Lemma download_completes (w : World) (tl_proj_x tl_proj_y br_proj_x br_proj_y : Q)
    (zoom size_x size_y channels : Z) :
  let g := geometry tl_proj_x tl_proj_y br_proj_x br_proj_y size_x size_y channels in
  let img := [img_h g; img_w g; channels] in
  get_image_info w (Py.int tl_proj_x) (Py.int tl_proj_y) zoom
    = Py.Returned (size_x, size_y, channels) ->
  0 <= tiles_total g -> 0 <= img_h g -> 0 <= channels ->
  download_map_region w tl_proj_x tl_proj_y br_proj_x br_proj_y zoom
  = Py.Returned {| run_geometry := g; run_img := img;
                   run_state := run_rows w g zoom img (tile_range_y g) initial_state;
                   run_printed := save w |}.
Proof.
  intros g img Hp Ht Hh Hc. unfold download_map_region. rewrite Hp.
  cbn [Py.bind]. fold g.
  rewrite (progress_bar_returns _ Ht). cbn [Py.bind].
  assert (Hw : 0 <= img_w g) by (simpl; lia).
  rewrite (allocate_returns g Hh Hw Hc). reflexivity.
Qed.


(** ** Invariants of the row loops *)

Section RunInvariants.

Variables (w : World) (g : Geometry) (zoom : Z) (h wd c : Z).

Hypothesis h_nonneg : 0 <= h.
Hypothesis wd_nonneg : 0 <= wd.

Let inside := inside_canvas h wd.

Lemma adjust_index_bounds (i len : Z) :
  0 <= len -> 0 <= Py.adjust_index i len <= len.
Proof.
  intros H. unfold Py.adjust_index. destruct (Z.ltb_spec i 0); lia.
Qed.

(** Whatever rectangle an assignment writes lies inside the canvas: the
    slice bounds are clamped. *)
Lemma copy_tile_inside (tile : Np.shape) (p : Placement) (r : Rect) :
  copy_tile [h; wd; c] tile p = Py.Returned r -> inside r.
Proof.
  unfold copy_tile. destruct (Np.broadcastable _ _); [| discriminate].
  intros E. inversion E; subst r; clear E.
  unfold inside, inside_canvas, dest_rect, Py.slice_indices; cbn [nth y0 y1 x0 x1].
  pose proof (adjust_index_bounds (img_y_l p) h h_nonneg).
  pose proof (adjust_index_bounds (img_y_r p) h h_nonneg).
  pose proof (adjust_index_bounds (img_x_l p) wd wd_nonneg).
  pose proof (adjust_index_bounds (img_x_r p) wd wd_nonneg).
  lia.
Qed.

(** A row thread writes inside the canvas only, and reports at most once
    per column it visits, the counter following the reports. *)
Lemma build_row_from_invariant (tile_y : Z) (xs : list Z) (st : State) :
  let st' := fst (build_row_from w g zoom [h; wd; c] tile_y xs st) in
  (Forall inside (written st) -> Forall inside (written st')) /\
  (List.length (bar_updates st) <= List.length (bar_updates st')
     <= List.length (bar_updates st) + List.length xs)%nat /\
  tiles_current st' - tiles_current st
    = Z.of_nat (List.length (bar_updates st')) - Z.of_nat (List.length (bar_updates st)).
Proof.
  revert st. induction xs as [| tile_x xs IH]; intros st; cbn [build_row_from].
  - simpl. repeat split; auto; lia.
  - destruct (get w tile_x tile_y zoom) as [e | status [tile |]].
    + simpl. repeat split; auto; lia.
    + destruct (copy_tile [h; wd; c] tile (place g tile_x tile_y)) as [r | e] eqn:C.
      * specialize (IH (record_write r (report st))).
        cbv zeta in IH. destruct IH as (I1 & I2 & I3).
        cbn [record_write report written bar_updates tiles_current List.length] in *.
        repeat split; try lia.
        intros F. apply I1. constructor; [| exact F].
        apply (copy_tile_inside tile _ r C).
      * cbn [fst report written bar_updates tiles_current List.length].
        repeat split; auto; lia.
    + specialize (IH st). cbv zeta in IH. destruct IH as (I1 & I2 & I3).
      cbn [List.length]. repeat split; auto; lia.
Qed.

Lemma run_rows_invariant (ys : list Z) (st : State) :
  let st' := run_rows w g zoom [h; wd; c] ys st in
  (Forall inside (written st) -> Forall inside (written st')) /\
  (List.length (bar_updates st')
     <= List.length (bar_updates st)
        + List.length ys * List.length (tile_range_x g))%nat.
Proof.
  revert st. induction ys as [| tile_y ys IH]; intros st; cbn [run_rows].
  - simpl. split; auto; lia.
  - pose proof (build_row_from_invariant tile_y (tile_range_x g) st) as B.
    cbv zeta in B. destruct B as (B1 & B2 & _).
    fold (build_row w g zoom [h; wd; c] tile_y st) in B1, B2.
    specialize (IH (fst (build_row w g zoom [h; wd; c] tile_y st))).
    cbv zeta in IH. destruct IH as (I1 & I2).
    cbn [List.length]. split; [auto | lia].
Qed.

End RunInvariants.

(** In a run that completes, every write lies inside the canvas and the
    progress bar is updated at most once per tile of the range. *)
Lemma run_invariant (w : World) (tl_proj_x tl_proj_y br_proj_x br_proj_y : Q)
    (zoom : Z) (r : Run) :
  download_map_region w tl_proj_x tl_proj_y br_proj_x br_proj_y zoom
    = Py.Returned r ->
  let g := run_geometry r in
  Forall (inside_canvas (img_h g) (img_w g)) (written (run_state r)) /\
  (List.length (bar_updates (run_state r))
     <= List.length (tile_range_y g) * List.length (tile_range_x g))%nat.
Proof.
  intros D.
  destruct (download_returned _ _ _ _ _ _ _ D) as (sx & sy & ch & _ & R).
  cbv zeta in R. destruct R as (_ & Hh & Hw & _ & ->).
  cbn [run_geometry run_state].
  set (g := geometry tl_proj_x tl_proj_y br_proj_x br_proj_y sx sy ch).
  pose proof (run_rows_invariant w g zoom (img_h g) (img_w g) ch
                Hh Hw (tile_range_y g) initial_state) as I.
  cbv zeta in I. destruct I as (I1 & I2).
  split; [apply I1; constructor | exact I2].
Qed.

(** ** The claims on the geometry *)

(** C2. When the canvas is allocated and the tiles are at least one pixel
    high, the Y bounds of a tile's destination are computed from its row
    [tile_y] alone, by [img_y_l = max(0, tile_y*tile_size_y - tl_pixel_y)] and
    [img_y_r = min(img_h + 1, tile_y*tile_size_y - tl_pixel_y + tile_size_y)],
    and two distinct rows of the tile range never select a common canvas
    row: no canvas element is written by two row threads. *)
Theorem row_bands_disjoint
    (tl_proj_x tl_proj_y br_proj_x br_proj_y : Q) (size_x size_y channels : Z)
    (img : Np.shape) (tile_y1 tile_y2 tile_xa tile_xb : Z) :
  let g := geometry tl_proj_x tl_proj_y br_proj_x br_proj_y size_x size_y channels in
  0 < size_y ->
  allocate g = Py.Returned img ->
  In tile_y1 (tile_range_y g) -> In tile_y2 (tile_range_y g) ->
  tile_y1 <> tile_y2 ->
  let pa := place g tile_xa tile_y1 in
  let pb := place g tile_xb tile_y2 in
  (img_y_l pa = Z.max 0 (tile_y1 * size_y - tl_pixel_y g) /\
   img_y_r pa = Z.min (img_h g + 1) (tile_y1 * size_y - tl_pixel_y g + size_y)) /\
  (forall y : Z,
     img_y_l pa <= y < img_y_r pa -> ~ img_y_l pb <= y < img_y_r pb) /\
  forall y xa xb : Z,
    in_rect (dest_rect (nth 0 img 0) (nth 1 img 0) pa) y xa ->
    ~ in_rect (dest_rect (nth 0 img 0) (nth 1 img 0) pb) y xb.
Proof.
  intros g Hs Ha H1 H2 Hne pa pb.
  split; [split; reflexivity|].
  split; [intros y; simpl; nia|].
  destruct (allocate_shape g img Ha) as (-> & Hh & _ & _).
  pose proof (rel_y_lower tl_proj_x tl_proj_y br_proj_x br_proj_y
                size_x size_y channels Hs tile_xa tile_y1 H1) as L1.
  pose proof (rel_y_lower tl_proj_x tl_proj_y br_proj_x br_proj_y
                size_x size_y channels Hs tile_xb tile_y2 H2) as L2.
  fold g in L1, L2.
  intros y xa xb [A _] [B _].
  change (Py.in_slice (img_y_l pa) (img_y_r pa) (img_h g) y) in A.
  change (Py.in_slice (img_y_l pb) (img_y_r pb) (img_h g) y) in B.
  destruct (Z.lt_total tile_y1 tile_y2) as [Lt | [E | Gt]]; [| contradiction |].
  - refine (axis_disjoint (tl_rel_y pa) (tl_rel_y pb) size_y (img_h g) y
              Hh L1 _ A B).
    simpl. nia.
  - refine (axis_disjoint (tl_rel_y pb) (tl_rel_y pa) size_y (img_h g) y
              Hh L2 _ B A).
    simpl. nia.
Qed.

(** The theorem at work on the two rows of a 2x2 request: canvas row 5 is
    written by the first row of tiles, hence not by the second. *)
Lemma row_bands_disjoint_witness :
  in_rect (dest_rect 281 281 (place Stub.two_by_two 0 0)) 5 5 /\
  ~ in_rect (dest_rect 281 281 (place Stub.two_by_two 1 1)) 5 200.
Proof.
  assert (A : in_rect (dest_rect 281 281 (place Stub.two_by_two 0 0)) 5 5)
    by (unfold in_rect; vm_compute; repeat split; discriminate).
  split; [exact A|].
  refine (proj2 (proj2 (row_bands_disjoint (1 # 2) (1 # 2) (8 # 5) (8 # 5)
                          256 256 3 [281; 281; 3] 0 1 0 1 _ _ _ _ _))
            5 5 200 A).
  - reflexivity.
  - reflexivity.
  - simpl; auto.
  - simpl; auto.
  - discriminate.
Defined.

(** C3. The destination's right and bottom bounds are clipped at
    [img_w + 1] and [img_h + 1], not at the canvas size: for the last
    column and the last row of a 2x2 request on a canvas of 281x281 pixels
    they are 282. *)
Theorem dest_bounds_exceed_canvas :
  In 1 (tile_range_x Stub.two_by_two) /\
  In 1 (tile_range_y Stub.two_by_two) /\
  img_w Stub.two_by_two = 281 /\
  img_h Stub.two_by_two = 281 /\
  img_x_r (place Stub.two_by_two 1 1) = 282 /\
  img_y_r (place Stub.two_by_two 1 1) = 282.
Proof.
  repeat split; try reflexivity; simpl; auto.
Qed.

(** C4, as stated, fails: half a tile into tile (0, 0) the pixel origin is
    (128, 128), not the tile-aligned (0, 0), and the offset of tile (1, 1)
    is 128, not 256. *)
Lemma pixel_origin_counterexample :
  pixel_origin Stub.two_by_two <> spec_pixel_origin (1 # 2) (1 # 2) 256 256 /\
  tl_rel_x (place Stub.two_by_two 1 1)
    <> 1 * 256 - fst (spec_pixel_origin (1 # 2) (1 # 2) 256 256).
Proof.
  split; vm_compute; discriminate.
Qed.

(** C4, amended.  The pixel origin is the projected top-left corner scaled
    by the tile size and truncated, [(int(tl_proj_x * tile_size_x),
    int(tl_proj_y * tile_size_y))]; for a non-negative projected corner it
    lies inside the top-left tile, less than one tile past the tile-aligned
    point [(floor(tl_proj_x) * tile_size_x, floor(tl_proj_y) * tile_size_y)];
    and the offset of every tile is [tile_x * tile_size_x] minus the origin's
    abscissa and [tile_y * tile_size_y] minus its ordinate. *)
Theorem pixel_origin_and_offsets
    (tl_proj_x tl_proj_y br_proj_x br_proj_y : Q) (size_x size_y channels : Z)
    (tile_x tile_y : Z) :
  let g := geometry tl_proj_x tl_proj_y br_proj_x br_proj_y size_x size_y channels in
  0 < size_x -> 0 < size_y -> (0 <= tl_proj_x)%Q -> (0 <= tl_proj_y)%Q ->
  pixel_origin g
    = (Py.int (Py.fmul tl_proj_x size_x), Py.int (Py.fmul tl_proj_y size_y)) /\
  (fst (spec_pixel_origin tl_proj_x tl_proj_y size_x size_y)
     <= fst (pixel_origin g)
     < fst (spec_pixel_origin tl_proj_x tl_proj_y size_x size_y) + size_x) /\
  (snd (spec_pixel_origin tl_proj_x tl_proj_y size_x size_y)
     <= snd (pixel_origin g)
     < snd (spec_pixel_origin tl_proj_x tl_proj_y size_x size_y) + size_y) /\
  tl_rel_x (place g tile_x tile_y) = tile_x * size_x - fst (pixel_origin g) /\
  tl_rel_y (place g tile_x tile_y) = tile_y * size_y - snd (pixel_origin g).
Proof.
  intros g Hx Hy Px Py.
  pose proof (int_fmul_nonneg tl_proj_x size_x Hx Px) as Bx.
  pose proof (int_fmul_nonneg tl_proj_y size_y Hy Py) as By.
  rewrite (int_floor _ Px) in Bx. rewrite (int_floor _ Py) in By.
  unfold spec_pixel_origin, pixel_origin; simpl.
  repeat split; lia.
Qed.

Lemma pixel_origin_and_offsets_witness :
  pixel_origin Stub.two_by_two = (128, 128) /\
  tl_rel_x (place Stub.two_by_two 1 1) = 1 * 256 - 128.
Proof.
  pose proof (pixel_origin_and_offsets (1 # 2) (1 # 2) (8 # 5) (8 # 5) 256 256 3 1 1
                ltac:(lia) ltac:(lia) ltac:(discriminate) ltac:(discriminate))
    as (E & _ & _ & R & _).
  split; [exact E | exact R].
Defined.

(** C5, as stated, fails: with the second corner north of the first, the
    probe completes and no canvas is allocated, [np.zeros] raising on the
    negative height. *)
Lemma canvas_counterexample :
  get_image_info Stub.colour (Py.int (1 # 2)) (Py.int (3 # 2)) 1
    = Py.Returned (256, 256, 3) /\
  img_h (geometry (1 # 2) (3 # 2) (8 # 5) (1 # 2) 256 256 3) = -256 /\
  download_map_region Stub.colour (1 # 2) (3 # 2) (8 # 5) (1 # 2) 1
    = Py.Raised "negative dimensions are not allowed".
Proof.
  repeat split; reflexivity.
Qed.

(** C5, amended.  Once the probe has given the tile size, with
    [W = |int(tl_proj_x*size_x) - int(br_proj_x*size_x)|],
    [H = int(br_proj_y*size_y) - int(tl_proj_y*size_y)] and [total] the
    tile total of line 189: when [total >= 0] and [H >= 0] the run
    allocates a canvas of [H] rows, [W] columns and the probed number of
    channels; when [total < 0] (the progress bar refuses it) or [H < 0]
    (the allocation refuses it) the run raises and no canvas exists. *)
Theorem canvas_dimensions
    (w : World) (tl_proj_x tl_proj_y br_proj_x br_proj_y : Q) (zoom : Z)
    (size_x size_y channels : Z) :
  get_image_info w (Py.int tl_proj_x) (Py.int tl_proj_y) zoom
    = Py.Returned (size_x, size_y, channels) ->
  0 <= channels ->
  let W := Z.abs (Py.int (Py.fmul tl_proj_x size_x) - Py.int (Py.fmul br_proj_x size_x)) in
  let H := Py.int (Py.fmul br_proj_y size_y) - Py.int (Py.fmul tl_proj_y size_y) in
  let total := (Py.int br_proj_x - Py.int tl_proj_x + 1)
               * (Py.int br_proj_y - Py.int tl_proj_y + 1) in
  (0 <= total -> 0 <= H ->
   exists r, download_map_region w tl_proj_x tl_proj_y br_proj_x br_proj_y zoom
               = Py.Returned r
             /\ run_img r = [H; W; channels]) /\
  (total < 0 \/ H < 0 ->
   exists e, download_map_region w tl_proj_x tl_proj_y br_proj_x br_proj_y zoom
               = Py.Raised e).
Proof.
  intros Hp Hc W H total.
  set (g := geometry tl_proj_x tl_proj_y br_proj_x br_proj_y size_x size_y channels).
  split.
  - intros Ht HH.
    pose proof (download_completes w tl_proj_x tl_proj_y br_proj_x br_proj_y
                  zoom size_x size_y channels Hp Ht HH Hc) as D.
    eexists. split; [exact D | reflexivity].
  - intros Hbad. unfold download_map_region. rewrite Hp. cbn [Py.bind]. fold g.
    destruct (Z.lt_ge_cases (tiles_total g) 0) as [T | T].
    + destruct (progress_bar_raises _ T) as [e ->]. eexists; reflexivity.
    + rewrite (progress_bar_returns _ T). cbn [Py.bind].
      assert (HH : img_h g < 0) by (destruct Hbad as [B | B]; [exact (False_ind _ (Z.lt_irrefl _ (Z.lt_le_trans _ _ _ B T))) | exact B]).
      destruct (allocate_raises g HH) as [e ->]. eexists; reflexivity.
Qed.

Lemma canvas_dimensions_witness :
  exists r, download_map_region Stub.colour (1 # 2) (1 # 2) (8 # 5) (8 # 5) 1
              = Py.Returned r
            /\ run_img r = [281; 281; 3].
Proof.
  refine (proj1 (canvas_dimensions Stub.colour (1 # 2) (1 # 2) (8 # 5) (8 # 5) 1
                   256 256 3 _ _) _ _).
  - reflexivity.
  - lia.
  - vm_compute. discriminate.
  - vm_compute. discriminate.
Defined.

(** C6, as stated, fails: with the corners given east to west two tiles
    apart, no tile is fetched (the column range is empty) and the total
    computed for the progress bar is -1. *)
Lemma tiles_total_counterexample :
  tile_range_x Stub.east_to_west = [] /\
  tiles_total Stub.east_to_west = -1 /\
  tiles_total Stub.east_to_west
    <> Z.of_nat (List.length (tile_range_x Stub.east_to_west))
       * Z.of_nat (List.length (tile_range_y Stub.east_to_west)).
Proof.
  repeat split; vm_compute; discriminate.
Qed.

(** C6, amended.  For non-negative projected corners the columns fetched
    are exactly the integers from [floor(tl_proj_x)] to [floor(br_proj_x)]
    and the rows those from [floor(tl_proj_y)] to [floor(br_proj_y)], each
    once, none when the last index is below the first; and when on each
    axis the last index is not more than one below the first (as when the
    second corner is south-east of the first), the total computed for the
    progress bar is the number of columns times the number of rows. *)
Theorem tile_ranges_and_total
    (tl_proj_x tl_proj_y br_proj_x br_proj_y : Q) (size_x size_y channels : Z) :
  let g := geometry tl_proj_x tl_proj_y br_proj_x br_proj_y size_x size_y channels in
  (0 <= tl_proj_x)%Q -> (0 <= tl_proj_y)%Q ->
  (0 <= br_proj_x)%Q -> (0 <= br_proj_y)%Q ->
  (forall i, In i (tile_range_x g) <-> Qfloor tl_proj_x <= i <= Qfloor br_proj_x) /\
  (forall j, In j (tile_range_y g) <-> Qfloor tl_proj_y <= j <= Qfloor br_proj_y) /\
  NoDup (tile_range_x g) /\ NoDup (tile_range_y g) /\
  (Qfloor br_proj_x < Qfloor tl_proj_x -> tile_range_x g = []) /\
  (Qfloor br_proj_y < Qfloor tl_proj_y -> tile_range_y g = []) /\
  (Qfloor tl_proj_x <= Qfloor br_proj_x + 1 ->
   Qfloor tl_proj_y <= Qfloor br_proj_y + 1 ->
   tiles_total g
   = Z.of_nat (List.length (tile_range_x g)) * Z.of_nat (List.length (tile_range_y g))).
Proof.
  intros g P1 P2 P3 P4.
  assert (Empty : forall a b, b < a -> Py.range a (b + 1) = []).
  { intros a b H. unfold Py.range.
    replace (Z.to_nat (b + 1 - a)) with 0%nat by lia. reflexivity. }
  unfold tile_range_x, tile_range_y.
  rewrite !range_length. simpl.
  rewrite (int_floor _ P1), (int_floor _ P2), (int_floor _ P3), (int_floor _ P4).
  split; [intros i; rewrite in_range; lia|].
  split; [intros j; rewrite in_range; lia|].
  split; [apply range_NoDup|]. split; [apply range_NoDup|].
  split; [apply Empty|]. split; [apply Empty|].
  intros Ox Oy. rewrite !Z.max_r by lia. f_equal; lia.
Qed.

Lemma tile_ranges_and_total_witness :
  tiles_total Stub.two_by_two
    = Z.of_nat (List.length (tile_range_x Stub.two_by_two))
      * Z.of_nat (List.length (tile_range_y Stub.two_by_two)).
Proof.
  refine (proj2 (proj2 (proj2 (proj2 (proj2 (proj2
    (tile_ranges_and_total (1 # 2) (1 # 2) (8 # 5) (8 # 5) 256 256 3
       _ _ _ _)))))) _ _); vm_compute; discriminate.
Defined.

(** C10, as stated, fails: for two corners north of the Mercator square
    (latitudes 90 and 88 at zoom 0) the canvas is 103 pixels wide and 37
    high, tile (0, 0) has the probed size, its target [img[73:38, 0:104]] is
    empty and its crop [tile[0:-36, 25:128]] has 220 rows: the assignment
    raises. *)
Lemma copy_counterexample :
  0 < img_w Stub.polar /\ 0 < img_h Stub.polar /\
  allocate Stub.polar = Py.Returned [37; 103; 3] /\
  In 0 (tile_range_x Stub.polar) /\ In 0 (tile_range_y Stub.polar) /\
  (img_y_l (place Stub.polar 0 0), img_y_r (place Stub.polar 0 0)) = (73, 38) /\
  (cr_y_l (place Stub.polar 0 0), cr_y_r (place Stub.polar 0 0)) = (0, -36) /\
  dest_shape [37; 103; 3] (place Stub.polar 0 0) = [0; 103; 3] /\
  crop_shape [256; 256; 3] (place Stub.polar 0 0) = [220; 103; 3] /\
  copy_tile [37; 103; 3] [256; 256; 3] (place Stub.polar 0 0)
    = Py.Raised "could not broadcast input array".
Proof.
  repeat split; try reflexivity; simpl; auto.
Qed.

(** C10, amended.  When the bottom-right corner projects to non-negative
    coordinates and the canvas is allocated, every tile of the range that
    decodes to a three-axis array of the probed height, width and channels
    is copied without error: the target rectangle lies inside the canvas,
    and the target and the crop have the same shape. *)
Theorem copy_tile_in_bounds
    (tl_proj_x tl_proj_y br_proj_x br_proj_y : Q) (size_x size_y channels : Z)
    (img : Np.shape) (tile_x tile_y : Z) :
  let g := geometry tl_proj_x tl_proj_y br_proj_x br_proj_y size_x size_y channels in
  0 < size_x -> 0 < size_y ->
  (0 <= br_proj_x)%Q -> (0 <= br_proj_y)%Q ->
  allocate g = Py.Returned img ->
  In tile_x (tile_range_x g) -> In tile_y (tile_range_y g) ->
  let p := place g tile_x tile_y in
  let tile := [size_y; size_x; channels] in
  dest_shape img p = crop_shape tile p /\
  exists r, copy_tile img tile p = Py.Returned r /\
            0 <= y0 r <= y1 r /\ y1 r <= img_h g /\
            0 <= x0 r <= x1 r /\ x1 r <= img_w g.
Proof.
  intros g Hx Hy Px Py Ha Tx Ty p tile.
  destruct (allocate_shape g img Ha) as (-> & Hh & Hw & _).
  pose proof (rel_x_lower tl_proj_x tl_proj_y br_proj_x br_proj_y
                size_x size_y channels Hx tile_x tile_y Tx) as Lx.
  pose proof (rel_y_lower tl_proj_x tl_proj_y br_proj_x br_proj_y
                size_x size_y channels Hy tile_x tile_y Ty) as Ly.
  pose proof (rel_x_upper tl_proj_x tl_proj_y br_proj_x br_proj_y
                size_x size_y channels Hx tile_x tile_y Px Tx) as Ux.
  pose proof (rel_y_upper tl_proj_x tl_proj_y br_proj_x br_proj_y
                size_x size_y channels Hy tile_x tile_y Py Ty) as Uy.
  fold g in Lx, Ly, Ux, Uy. fold p in Lx, Ly, Ux, Uy.
  assert (E : dest_shape [img_h g; img_w g; tile_channels g] p = crop_shape tile p).
  { unfold dest_shape, crop_shape, tile, Np.slice2_shape.
    change (img_y_l p) with (Z.max 0 (tl_rel_y p)).
    change (img_x_l p) with (Z.max 0 (tl_rel_x p)).
    change (img_y_r p) with (Z.min (img_h g + 1) (tl_rel_y p + size_y)).
    change (img_x_r p) with (Z.min (img_w g + 1) (tl_rel_x p + size_x)).
    change (cr_y_l p) with (Z.max 0 (- tl_rel_y p)).
    change (cr_x_l p) with (Z.max 0 (- tl_rel_x p)).
    change (cr_y_r p) with (size_y + Z.min 0 (img_h g - (tl_rel_y p + size_y))).
    change (cr_x_r p) with (size_x + Z.min 0 (img_w g - (tl_rel_x p + size_x))).
    rewrite (axis_lengths_agree (tl_rel_y p) size_y (img_h g)) by lia.
    rewrite (axis_lengths_agree (tl_rel_x p) size_x (img_w g)) by lia.
    reflexivity. }
  split; [exact E|].
  unfold copy_tile. rewrite E, broadcastable_refl.
  eexists; split; [reflexivity|].
  pose proof (axis_in_bounds (tl_rel_y p) size_y (img_h g) Hy Hh (conj Ly Uy)) as By.
  pose proof (axis_in_bounds (tl_rel_x p) size_x (img_w g) Hx Hw (conj Lx Ux)) as Bx.
  unfold dest_rect, Py.slice_indices; cbn [nth y0 y1 x0 x1].
  change (img_y_l p) with (Z.max 0 (tl_rel_y p)).
  change (img_x_l p) with (Z.max 0 (tl_rel_x p)).
  change (img_y_r p) with (Z.min (img_h g + 1) (tl_rel_y p + size_y)).
  change (img_x_r p) with (Z.min (img_w g + 1) (tl_rel_x p + size_x)).
  lia.
Qed.

Lemma copy_tile_in_bounds_witness :
  dest_shape [281; 281; 3] (place Stub.two_by_two 1 1)
    = crop_shape [256; 256; 3] (place Stub.two_by_two 1 1).
Proof.
  refine (proj1 (copy_tile_in_bounds (1 # 2) (1 # 2) (8 # 5) (8 # 5) 256 256 3
                   [281; 281; 3] 1 1 _ _ _ _ _ _ _)).
  - lia.
  - lia.
  - discriminate.
  - discriminate.
  - reflexivity.
  - simpl; auto.
  - simpl; auto.
Defined.

(** A server of single-channel tiles: the probe reports one channel, the
    canvas has three axes, the decoded tiles two, and the copy of the very
    first tile raises. *)
Example grey_tile_copy_raises :
  get_image_info Stub.grey 0 0 1 = Py.Returned (256, 256, 1) /\
  copy_tile [281; 281; 1] [256; 256]
    (place (geometry (1 # 2) (1 # 2) (8 # 5) (8 # 5) 256 256 1) 0 0)
    = Py.Raised "could not broadcast input array".
Proof.
  split; reflexivity.
Qed.

(** ** The claims on the probe, the progress bar and the encoder *)

(** C7, as stated, fails: when the request itself raises, the probe raises
    too and the program ends with status 1; and an answer of status 500
    whose body is an image gives that image's size, not the fallback. *)
Lemma probe_counterexample :
  get_image_info Stub.unreachable 0 0 1 = Py.Raised "Connection refused" /\
  snd (main Stub.unreachable (1 # 2) (1 # 2) (8 # 5) (8 # 5) 1) = 1 /\
  get_image_info Stub.error_page_image 0 0 1 = Py.Returned (512, 512, 3).
Proof.
  repeat split; reflexivity.
Qed.

(** C7, amended.  Whatever the status code of the answer: when the body
    does not decode, [get_image_info] returns the fallback (256, 256, 1);
    when it decodes to a two-axis array it returns its width, its height and
    1; when it decodes to an array of three axes or more it returns its
    width, its height and the length of its third axis.  When the request or
    the decoder raises, [get_image_info] raises the same exception. *)
Theorem get_image_info_cases (w : World) (tx ty zoom : Z) :
  (forall status,
     get w tx ty zoom = Fetched status None ->
     get_image_info w tx ty zoom = Py.Returned (256, 256, 1)) /\
  (forall status height width,
     get w tx ty zoom = Fetched status (Some [height; width]) ->
     get_image_info w tx ty zoom = Py.Returned (width, height, 1)) /\
  (forall status height width channels rest,
     get w tx ty zoom = Fetched status (Some (height :: width :: channels :: rest)) ->
     get_image_info w tx ty zoom = Py.Returned (width, height, channels)) /\
  (forall e,
     get w tx ty zoom = FetchRaised e ->
     get_image_info w tx ty zoom = Py.Raised e).
Proof.
  unfold get_image_info.
  repeat split; intros; rewrite H; try reflexivity.
  cbn [List.length nth].
  destruct (Z.ltb_spec 2 (Z.of_nat (S (S (S (List.length rest)))))); [reflexivity | lia].
Qed.

Lemma get_image_info_cases_witness :
  get_image_info Stub.not_found 0 0 1 = Py.Returned (256, 256, 1).
Proof.
  exact (proj1 (get_image_info_cases Stub.not_found 0 0 1) 404 eq_refl).
Defined.

(** C8.  A tile that does not decode is not reported: on a request of one
    tile against a server that answers 404, the run completes, the total
    given to the progress bar is 1, and the bar is never updated. *)
Theorem failed_tile_not_reported :
  exists r,
    download_map_region Stub.not_found (1 # 4) (1 # 4) (3 # 4) (3 # 4) 0
      = Py.Returned r /\
    tile_range_x (run_geometry r) = [0] /\
    tile_range_y (run_geometry r) = [0] /\
    tiles_total (run_geometry r) = 1 /\
    bar_updates (run_state r) = [] /\
    tiles_current (run_state r) = 0.
Proof.
  eexists. repeat split; reflexivity.
Qed.

(** Whatever the encoder does, a run that reaches it ends with exit status
    0: an exception is printed after ["Error:"] and a line break, and a
    returned boolean, whatever its value, is followed by ["Done."]. *)
Lemma encoder_never_fails_the_run
    (w : World) (tl_proj_x tl_proj_y br_proj_x br_proj_y : Q) (zoom : Z)
    (r : Run) :
  download_map_region w tl_proj_x tl_proj_y br_proj_x br_proj_y zoom
    = Py.Returned r ->
  main w tl_proj_x tl_proj_y br_proj_x br_proj_y zoom
  = (match imwrite w with
     | ImwriteRaised e => [String.append "Error:" (String newline e)]
     | ImwriteReturned _ => ["Done."%string]
     end, 0).
Proof.
  intros D. unfold main. rewrite D.
  destruct (download_returned _ _ _ _ _ _ _ D) as (sx & sy & ch & _ & R).
  cbv zeta in R. destruct R as (_ & _ & _ & _ & ->). reflexivity.
Qed.

(** C9.  When the encoder fails, the program still ends with exit status 0:
    on a 2x2 request, an encoder that raises has its exception printed and
    swallowed, and an encoder that returns [False] for a file it could not
    write is followed by ["Done."], nothing being reported. *)
Theorem encoder_failure_exit_status :
  main Stub.unwritable (1 # 2) (1 # 2) (8 # 5) (8 # 5) 1
  = ([String.append "Error:"
        (String newline "could not find a writer for the specified extension")],
     0) /\
  main Servers.write_refused (1 # 2) (1 # 2) (8 # 5) (8 # 5) 1
  = (["Done."%string], 0).
Proof.
  split; reflexivity.
Qed.

(** ** The projection *)

Section ProjectionFacts.
Local Open Scope R_scope.
Import Projection.

Lemma scale_pow (zoom : Z) : (0 <= zoom)%Z -> scale zoom = (2 ^ zoom)%Z.
Proof. intros H. unfold scale. apply Z.shiftl_1_l. Qed.

Lemma scale_pos (zoom : Z) : (0 <= zoom)%Z -> 0 < IZR (scale zoom).
Proof.
  intros H. rewrite scale_pow by assumption.
  apply IZR_lt. apply Z.pow_pos_nonneg; lia.
Qed.

Lemma clamped_siny_bounds (lat : R) : - 0.9999 <= clamped_siny lat <= 0.9999.
Proof.
  unfold clamped_siny. split.
  - apply Rmin_glb; [apply Rmax_r | lra].
  - apply Rmin_r.
Qed.

Lemma clamped_siny_mono (lat lat' : R) :
  -90 <= lat -> lat <= lat' -> lat' <= 90 ->
  clamped_siny lat <= clamped_siny lat'.
Proof.
  intros L M U. unfold clamped_siny.
  apply Rle_min_compat_r. apply Rle_max_compat_r.
  pose proof PI_RGT_0.
  apply sin_incr_1; unfold Rdiv; nra.
Qed.

(** The logarithm on line 164 is taken of a positive number. *)
Lemma ratio_pos (s : R) : - 0.9999 <= s <= 0.9999 -> 0 < (1 + s) / (1 - s).
Proof.
  intros H. apply Rdiv_lt_0_compat; lra.
Qed.

Lemma ratio_mono (s s' : R) :
  - 0.9999 <= s -> s <= s' -> s' <= 0.9999 ->
  (1 + s) / (1 - s) <= (1 + s') / (1 - s').
Proof.
  intros L M U.
  apply Rmult_le_reg_r with ((1 - s) * (1 - s')); [nra|].
  replace ((1 + s) / (1 - s) * ((1 - s) * (1 - s'))) with ((1 + s) * (1 - s'))
    by (field; lra).
  replace ((1 + s') / (1 - s') * ((1 - s) * (1 - s'))) with ((1 + s') * (1 - s))
    by (field; lra).
  nra.
Qed.

Lemma ln_mono (a b : R) : 0 < a -> a <= b -> ln a <= ln b.
Proof.
  intros P [L | ->]; [left; apply ln_increasing; assumption | right; reflexivity].
Qed.

Lemma log_ratio_mono (s s' : R) :
  - 0.9999 <= s -> s <= s' -> s' <= 0.9999 ->
  ln ((1 + s) / (1 - s)) <= ln ((1 + s') / (1 - s')).
Proof.
  intros L M U. apply ln_mono; [apply ratio_pos; lra | apply ratio_mono; lra].
Qed.

Lemma log_ratio_bounds (s : R) :
  - 0.9999 <= s <= 0.9999 ->
  - ln_bound <= ln ((1 + s) / (1 - s)) <= ln_bound.
Proof.
  intros [L U]. unfold ln_bound. split.
  - replace (- ln 19999) with (ln ((1 + - 0.9999) / (1 - - 0.9999))).
    + apply log_ratio_mono; lra.
    + replace ((1 + - 0.9999) / (1 - - 0.9999)) with (/ 19999) by lra.
      apply ln_Rinv. lra.
  - replace 19999 with ((1 + 0.9999) / (1 - 0.9999)) by lra.
    apply log_ratio_mono; lra.
Qed.

Lemma exp_8_lt : exp 8 < 19999.
Proof.
  pose proof exp_le_3 as E1. pose proof (exp_pos 1) as P1.
  assert (E2 : exp 2 <= 9).
  { replace 2 with (1 + 1) by lra. rewrite exp_plus. nra. }
  pose proof (exp_pos 2) as P2.
  assert (E4 : exp 4 <= 81).
  { replace 4 with (2 + 2) by lra. rewrite exp_plus. nra. }
  pose proof (exp_pos 4) as P4.
  replace 8 with (4 + 4) by lra. rewrite exp_plus. nra.
Qed.

Lemma ln_bound_gt_2PI : 2 * PI < ln_bound.
Proof.
  unfold ln_bound. pose proof PI_4.
  apply Rle_lt_trans with 8; [lra|].
  rewrite <- (ln_exp 8). apply ln_increasing; [apply exp_pos | apply exp_8_lt].
Qed.

Lemma sin_right_angle : sin (90 * PI / 180) = 1.
Proof.
  replace (90 * PI / 180) with (PI / 2) by lra. apply sin_PI2.
Qed.

(** [y] as a function of the clamped sine. *)
Lemma y_of_siny (lat lon s : R) :
  snd (lat_lon_to_tile_coords lat lon s)
  = s * (0.5 - ln ((1 + clamped_siny lat) / (1 - clamped_siny lat)) / (4 * PI)).
Proof. reflexivity. Qed.

Lemma y_antitone (s l l' : R) :
  0 <= s -> l <= l' ->
  s * (0.5 - l' / (4 * PI)) <= s * (0.5 - l / (4 * PI)).
Proof.
  intros Hs Hl. pose proof PI_RGT_0 as HP.
  apply Rmult_le_compat_l; [assumption|].
  apply Rplus_le_compat_l, Ropp_le_contravar.
  apply Rmult_le_compat_r; [| assumption].
  left. apply Rinv_0_lt_compat. lra.
Qed.

Lemma y_in_square_iff (s l : R) :
  0 < s ->
  (0 <= s * (0.5 - l / (4 * PI)) <= s <-> Rabs l <= 2 * PI).
Proof.
  intros Hs. pose proof PI_RGT_0 as HP.
  assert (E : l / (4 * PI) * (4 * PI) = l) by (field; lra).
  set (q := l / (4 * PI)) in *.
  split.
  - intros [A B]. apply Rabs_le. nra.
  - intros H.
    assert (- (2 * PI) <= l <= 2 * PI)
      by (unfold Rabs in H; destruct (Rcase_abs l); lra).
    nra.
Qed.

End ProjectionFacts.

Section ProjectionClaim.
Local Open Scope R_scope.
Import Projection.

(** C1, as stated, fails: at latitude 90 the clamped sine is 0.9999 and,
    [ln 19999] being more than [2 * PI], the projected [y] is negative,
    outside [0, 2^zoom]. *)
Lemma projection_counterexample :
  snd (Projection.lat_lon_to_tile_coords 90 0 (IZR (Projection.scale 0))) < 0.
Proof.
  rewrite y_of_siny. unfold clamped_siny. rewrite sin_right_angle.
  rewrite Rmax_left by lra. rewrite Rmin_right by lra.
  replace ((1 + 0.9999) / (1 - 0.9999)) with 19999 by lra.
  change (ln 19999) with ln_bound.
  pose proof ln_bound_gt_2PI as L. pose proof PI_RGT_0 as HP.
  change (IZR (scale 0)) with 1.
  assert (E : ln_bound / (4 * PI) * (4 * PI) = ln_bound) by (field; lra).
  set (q := ln_bound / (4 * PI)) in *.
  nra.
Qed.

(** C1, amended.  For a latitude in [-90, 90], a longitude in [-180, 180]
    and a zoom of 0 or more, with [scale = 2^zoom]: the projection returns
    [x = scale * (0.5 + lon/360)] and
    [y = scale * (0.5 - ln((1+siny)/(1-siny)) / (4*PI))], where [siny] is the
    sine of the latitude clamped to [-0.9999, 0.9999]; [x] lies in
    [0, scale]; [y] lies within [scale * (0.5 - ln 19999 / (4*PI))] and
    [scale * (0.5 + ln 19999 / (4*PI))], and in [0, scale] exactly when
    [|ln((1+siny)/(1-siny))| <= 2*PI]; [x] does not decrease with the
    longitude and [y] does not increase with the latitude. *)
Theorem projection_formula_range_monotone (lat lon : R) (zoom : Z) :
  -90 <= lat <= 90 -> -180 <= lon <= 180 -> (0 <= zoom)%Z ->
  let scale := IZR (Projection.scale zoom) in
  let siny := Projection.clamped_siny lat in
  let xy := Projection.lat_lon_to_tile_coords lat lon scale in
  scale = IZR (2 ^ zoom) /\
  - 0.9999 <= siny <= 0.9999 /\
  fst xy = scale * (0.5 + lon / 360) /\
  snd xy = scale * (0.5 - ln ((1 + siny) / (1 - siny)) / (4 * PI)) /\
  0 <= fst xy <= scale /\
  scale * (0.5 - Projection.ln_bound / (4 * PI)) <= snd xy
    <= scale * (0.5 + Projection.ln_bound / (4 * PI)) /\
  (0 <= snd xy <= scale <-> Rabs (ln ((1 + siny) / (1 - siny))) <= 2 * PI) /\
  (forall lon', lon <= lon' ->
     fst xy <= fst (Projection.lat_lon_to_tile_coords lat lon' scale)) /\
  (forall lat', lat <= lat' <= 90 ->
     snd (Projection.lat_lon_to_tile_coords lat' lon scale) <= snd xy).
Proof.
  intros Hlat Hlon Hz scale siny xy.
  pose proof (scale_pos zoom Hz) as Hs. fold scale in Hs.
  pose proof (clamped_siny_bounds lat) as Hb. fold siny in Hb.
  pose proof PI_RGT_0 as HP.
  pose proof (log_ratio_bounds siny Hb) as Hl.
  split; [unfold scale; rewrite scale_pow by assumption; reflexivity|].
  split; [exact Hb|].
  split; [reflexivity|].
  split; [apply y_of_siny|].
  split; [simpl; nra|].
  unfold xy. rewrite y_of_siny. fold siny.
  split.
  { split.
    - apply y_antitone; [lra | apply Hl].
    - replace (0.5 + ln_bound / (4 * PI)) with (0.5 - (- ln_bound) / (4 * PI))
        by (field; lra).
      apply y_antitone; [lra | apply Hl]. }
  split; [apply (y_in_square_iff scale _ Hs)|].
  split.
  - intros lon' H. simpl. nra.
  - intros lat' H. rewrite y_of_siny.
    pose proof (clamped_siny_bounds lat') as Hb'.
    pose proof (clamped_siny_mono lat lat' ltac:(lra) ltac:(lra) ltac:(lra)) as Hm.
    fold siny in Hm.
    apply y_antitone; [lra|].
    apply log_ratio_mono; lra.
Qed.

Lemma projection_formula_range_monotone_witness :
  0 <= fst (Projection.lat_lon_to_tile_coords 0 0 (IZR (Projection.scale 0)))
    <= IZR (Projection.scale 0).
Proof.
  pose proof (projection_formula_range_monotone 0 0 0
                ltac:(lra) ltac:(lra) ltac:(lia)) as H.
  cbv zeta in H. exact (proj1 (proj2 (proj2 (proj2 (proj2 H))))).
Defined.

End ProjectionClaim.


(** * Further properties of the geometry *)

Section AxisMore.

Ltac axis_split :=
  unfold Py.in_slice, Py.slice_len, Py.slice_indices, Py.adjust_index;
  repeat (match goal with
  | |- context [Z.max ?a ?b] =>
      destruct (Z.max_spec a b) as [[? ->] | [? ->]]
  | |- context [Z.min ?a ?b] =>
      destruct (Z.min_spec a b) as [[? ->] | [? ->]]
  | |- context [if ?a <? ?b then _ else _] =>
      destruct (Z.ltb_spec a b)
  | H : context [if _ then _ else _] |- _ => revert H
  end; try lia); try lia.

(** An index of the axis that falls in the tile is selected by the tile's
    target slice. *)
Lemma axis_covers (rel t len i : Z) :
  0 <= i < len -> rel <= i < rel + t ->
  Py.in_slice (Z.max 0 rel) (Z.min (len + 1) (rel + t)) len i.
Proof.
  intros Hi Hr. axis_split.
Qed.

(** The target slice and the crop start [rel] apart: the k-th index of the
    crop is the tile's own index of the k-th target index. *)
Lemma axis_aligned (rel t len : Z) :
  0 < t -> 0 <= len -> - t < rel <= len ->
  Py.adjust_index (Z.max 0 rel) len - Py.adjust_index (Z.max 0 (- rel)) t = rel.
Proof.
  intros Ht Hlen Hrel. axis_split.
Qed.

(** Two tiles at different places of an axis select disjoint indices. *)
Lemma axis_apart (rel1 rel2 t len i : Z) :
  0 <= len -> - t < rel1 -> - t < rel2 ->
  rel1 + t <= rel2 \/ rel2 + t <= rel1 ->
  Py.in_slice (Z.max 0 rel1) (Z.min (len + 1) (rel1 + t)) len i ->
  ~ Py.in_slice (Z.max 0 rel2) (Z.min (len + 1) (rel2 + t)) len i.
Proof.
  intros Hlen H1 H2 [L | L] A B.
  - exact (axis_disjoint rel1 rel2 t len i Hlen H1 L A B).
  - exact (axis_disjoint rel2 rel1 t len i Hlen H2 L B A).
Qed.

End AxisMore.

Section GeometryMore.

Variables tl_proj_x tl_proj_y br_proj_x br_proj_y : Q.
Variables size_x size_y channels : Z.

Let g := geometry tl_proj_x tl_proj_y br_proj_x br_proj_y size_x size_y channels.

Hypothesis size_x_pos : 0 < size_x.
Hypothesis size_y_pos : 0 < size_y.

(** Consecutive tiles are exactly one tile apart. *)
Lemma rel_x_apart (tx tx' ty ty' : Z) :
  tx <> tx' ->
  tl_rel_x (place g tx ty) + size_x <= tl_rel_x (place g tx' ty') \/
  tl_rel_x (place g tx' ty') + size_x <= tl_rel_x (place g tx ty).
Proof.
  intros H. simpl. destruct (Z.lt_total tx tx') as [L | [E | L]];
    [left; nia | contradiction | right; nia].
Qed.

Lemma rel_y_apart (tx tx' ty ty' : Z) :
  ty <> ty' ->
  tl_rel_y (place g tx ty) + size_y <= tl_rel_y (place g tx' ty') \/
  tl_rel_y (place g tx' ty') + size_y <= tl_rel_y (place g tx ty).
Proof.
  intros H. simpl. destruct (Z.lt_total ty ty') as [L | [E | L]];
    [left; nia | contradiction | right; nia].
Qed.

(** No overlaps: two different tiles of the range never select a common
    canvas element. *)
Theorem tiles_write_disjoint (img : Np.shape) (tx ty tx' ty' y x : Z) :
  allocate g = Py.Returned img ->
  In tx (tile_range_x g) -> In ty (tile_range_y g) ->
  In tx' (tile_range_x g) -> In ty' (tile_range_y g) ->
  (tx, ty) <> (tx', ty') ->
  in_rect (dest_rect (nth 0 img 0) (nth 1 img 0) (place g tx ty)) y x ->
  ~ in_rect (dest_rect (nth 0 img 0) (nth 1 img 0) (place g tx' ty')) y x.
Proof.
  intros Ha Tx Ty Tx' Ty' Hne [Ay Ax] [By Bx].
  destruct (allocate_shape g img Ha) as (-> & Hh & Hw & _).
  cbn [nth] in *.
  pose proof (rel_x_lower tl_proj_x tl_proj_y br_proj_x br_proj_y
                size_x size_y channels size_x_pos tx ty Tx) as Lx.
  pose proof (rel_x_lower tl_proj_x tl_proj_y br_proj_x br_proj_y
                size_x size_y channels size_x_pos tx' ty' Tx') as Lx'.
  pose proof (rel_y_lower tl_proj_x tl_proj_y br_proj_x br_proj_y
                size_x size_y channels size_y_pos tx ty Ty) as Ly.
  pose proof (rel_y_lower tl_proj_x tl_proj_y br_proj_x br_proj_y
                size_x size_y channels size_y_pos tx' ty' Ty') as Ly'.
  fold g in Lx, Lx', Ly, Ly'.
  destruct (Z.eq_dec ty ty') as [Ey | Ny].
  - destruct (Z.eq_dec tx tx') as [Ex | Nx]; [subst; contradiction|].
    refine (axis_apart _ _ size_x (img_w g) x Hw Lx Lx'
              (rel_x_apart tx tx' ty ty' Nx) Ax Bx).
  - refine (axis_apart _ _ size_y (img_h g) y Hh Ly Ly'
              (rel_y_apart tx tx' ty ty' Ny) Ay By).
Qed.

(** With both corners in the non-negative quadrant and the second one not
    west or north of the first, the canvas is the difference of the corner
    pixels and each corner pixel lies in its tile. *)
Lemma ordered_corner_pixels :
  (0 <= tl_proj_x)%Q -> (0 <= tl_proj_y)%Q ->
  (tl_proj_x <= br_proj_x)%Q -> (tl_proj_y <= br_proj_y)%Q ->
  img_w g = br_pixel_x g - tl_pixel_x g /\
  img_h g = br_pixel_y g - tl_pixel_y g /\
  tl_tile_x g * size_x <= tl_pixel_x g < (tl_tile_x g + 1) * size_x /\
  tl_tile_y g * size_y <= tl_pixel_y g < (tl_tile_y g + 1) * size_y /\
  br_tile_x g * size_x <= br_pixel_x g < (br_tile_x g + 1) * size_x /\
  br_tile_y g * size_y <= br_pixel_y g < (br_tile_y g + 1) * size_y /\
  tl_pixel_x g <= br_pixel_x g /\ tl_pixel_y g <= br_pixel_y g.
Proof.
  intros Px Py Ox Oy.
  assert (Bx : (0 <= br_proj_x)%Q) by (apply Qle_trans with tl_proj_x; assumption).
  assert (By : (0 <= br_proj_y)%Q) by (apply Qle_trans with tl_proj_y; assumption).
  pose proof (int_mono _ _ (fmul_mono _ _ size_x (Z.lt_le_incl _ _ size_x_pos) Ox)).
  pose proof (int_mono _ _ (fmul_mono _ _ size_y (Z.lt_le_incl _ _ size_y_pos) Oy)).
  pose proof (int_fmul_nonneg tl_proj_x size_x size_x_pos Px).
  pose proof (int_fmul_nonneg tl_proj_y size_y size_y_pos Py).
  pose proof (int_fmul_nonneg br_proj_x size_x size_x_pos Bx).
  pose proof (int_fmul_nonneg br_proj_y size_y size_y_pos By).
  simpl. repeat split; lia.
Qed.

(** No gaps: every element of the canvas is selected by a tile of the
    range, the one that holds its map pixel. *)
Theorem canvas_covered (y x : Z) :
  (0 <= tl_proj_x)%Q -> (0 <= tl_proj_y)%Q ->
  (tl_proj_x <= br_proj_x)%Q -> (tl_proj_y <= br_proj_y)%Q ->
  0 <= y < img_h g -> 0 <= x < img_w g ->
  let tx := (x + tl_pixel_x g) / size_x in
  let ty := (y + tl_pixel_y g) / size_y in
  In tx (tile_range_x g) /\ In ty (tile_range_y g) /\
  in_rect (dest_rect (img_h g) (img_w g) (place g tx ty)) y x.
Proof.
  intros Px Py Ox Oy Hy Hx tx ty.
  destruct (ordered_corner_pixels Px Py Ox Oy)
    as (Ew & Eh & Tx & Ty & Bx & By & _ & _).
  pose proof (Z.div_mod (x + tl_pixel_x g) size_x ltac:(lia)) as Dx.
  pose proof (Z.mod_pos_bound (x + tl_pixel_x g) size_x size_x_pos) as Mx.
  pose proof (Z.div_mod (y + tl_pixel_y g) size_y ltac:(lia)) as Dy.
  pose proof (Z.mod_pos_bound (y + tl_pixel_y g) size_y size_y_pos) as My.
  fold tx in Dx. fold ty in Dy.
  assert (Rx : tl_tile_x g <= tx < br_tile_x g + 1) by nia.
  assert (Ry : tl_tile_y g <= ty < br_tile_y g + 1) by nia.
  split; [apply in_range; exact Rx|].
  split; [apply in_range; exact Ry|].
  split.
  - apply (axis_covers (tl_rel_y (place g tx ty)) size_y (img_h g) y Hy).
    change (tl_rel_y (place g tx ty)) with (ty * size_y - tl_pixel_y g). lia.
  - apply (axis_covers (tl_rel_x (place g tx ty)) size_x (img_w g) x Hx).
    change (tl_rel_x (place g tx ty)) with (tx * size_x - tl_pixel_x g). lia.
Qed.

(** The canvas is smaller than the block of tiles fetched and larger than
    that block less one tile on each axis. *)
Theorem canvas_within_tile_block :
  (0 <= tl_proj_x)%Q -> (0 <= tl_proj_y)%Q ->
  (tl_proj_x <= br_proj_x)%Q -> (tl_proj_y <= br_proj_y)%Q ->
  let columns := Z.of_nat (List.length (tile_range_x g)) in
  let rows := Z.of_nat (List.length (tile_range_y g)) in
  1 <= columns /\ 1 <= rows /\
  (columns - 2) * size_x < img_w g < columns * size_x /\
  (rows - 2) * size_y < img_h g < rows * size_y.
Proof.
  intros Px Py Ox Oy columns rows.
  destruct (ordered_corner_pixels Px Py Ox Oy)
    as (Ew & Eh & Tx & Ty & Bx & By & _ & _).
  pose proof (int_mono _ _ Ox) as Mx. pose proof (int_mono _ _ Oy) as My.
  unfold columns, rows, tile_range_x, tile_range_y.
  rewrite !range_length.
  change (tl_tile_x g) with (Py.int tl_proj_x) in *.
  change (br_tile_x g) with (Py.int br_proj_x) in *.
  change (tl_tile_y g) with (Py.int tl_proj_y) in *.
  change (br_tile_y g) with (Py.int br_proj_y) in *.
  rewrite !Z.max_r by lia. nia.
Qed.

(** The copy keeps every pixel at its place on the map: the tile row and
    column read for a canvas element are the element's row and column less
    the tile's offset. *)
Theorem copy_aligned (tile_x tile_y : Z) :
  (0 <= br_proj_x)%Q -> (0 <= br_proj_y)%Q -> 0 <= img_h g ->
  In tile_x (tile_range_x g) -> In tile_y (tile_range_y g) ->
  let p := place g tile_x tile_y in
  y0 (dest_rect (img_h g) (img_w g) p) - y0 (crop_rect size_y size_x p)
    = tile_y * size_y - tl_pixel_y g /\
  x0 (dest_rect (img_h g) (img_w g) p) - x0 (crop_rect size_y size_x p)
    = tile_x * size_x - tl_pixel_x g.
Proof.
  intros Bx By Hh Tx Ty p.
  pose proof (rel_x_lower tl_proj_x tl_proj_y br_proj_x br_proj_y
                size_x size_y channels size_x_pos tile_x tile_y Tx) as Lx.
  pose proof (rel_y_lower tl_proj_x tl_proj_y br_proj_x br_proj_y
                size_x size_y channels size_y_pos tile_x tile_y Ty) as Ly.
  pose proof (rel_x_upper tl_proj_x tl_proj_y br_proj_x br_proj_y
                size_x size_y channels size_x_pos tile_x tile_y Bx Tx) as Ux.
  pose proof (rel_y_upper tl_proj_x tl_proj_y br_proj_x br_proj_y
                size_x size_y channels size_y_pos tile_x tile_y By Ty) as Uy.
  fold g in Lx, Ly, Ux, Uy. fold p in Lx, Ly, Ux, Uy.
  assert (Hw : 0 <= img_w g) by (simpl; lia).
  unfold dest_rect, crop_rect, Py.slice_indices; cbn [y0 x0].
  change (img_y_l p) with (Z.max 0 (tl_rel_y p)).
  change (img_x_l p) with (Z.max 0 (tl_rel_x p)).
  change (cr_y_l p) with (Z.max 0 (- tl_rel_y p)).
  change (cr_x_l p) with (Z.max 0 (- tl_rel_x p)).
  rewrite (axis_aligned (tl_rel_y p) size_y (img_h g)) by lia.
  rewrite (axis_aligned (tl_rel_x p) size_x (img_w g)) by lia.
  split; reflexivity.
Qed.

End GeometryMore.

(** * Further properties of a run *)

Section CopyMore.

Variables tl_proj_x tl_proj_y br_proj_x br_proj_y : Q.
Variables size_x size_y channels : Z.

Let g := geometry tl_proj_x tl_proj_y br_proj_x br_proj_y size_x size_y channels.

Hypothesis size_x_pos : 0 < size_x.
Hypothesis size_y_pos : 0 < size_y.
Hypothesis br_x_nonneg : (0 <= br_proj_x)%Q.
Hypothesis br_y_nonneg : (0 <= br_proj_y)%Q.
Hypothesis img_h_ok : 0 <= img_h g.

Variables tile_x tile_y : Z.
Hypothesis tile_x_in : In tile_x (tile_range_x g).
Hypothesis tile_y_in : In tile_y (tile_range_y g).

Let p := place g tile_x tile_y.

(** The visible part of the tile: as many rows and columns of the canvas
    as of the tile. *)
Lemma visible_part :
  Py.slice_len (img_y_l p) (img_y_r p) (img_h g)
    = Py.slice_len (cr_y_l p) (cr_y_r p) size_y /\
  Py.slice_len (img_x_l p) (img_x_r p) (img_w g)
    = Py.slice_len (cr_x_l p) (cr_x_r p) size_x.
Proof.
  pose proof (rel_x_lower tl_proj_x tl_proj_y br_proj_x br_proj_y
                size_x size_y channels size_x_pos tile_x tile_y tile_x_in) as Lx.
  pose proof (rel_y_lower tl_proj_x tl_proj_y br_proj_x br_proj_y
                size_x size_y channels size_y_pos tile_x tile_y tile_y_in) as Ly.
  pose proof (rel_x_upper tl_proj_x tl_proj_y br_proj_x br_proj_y
                size_x size_y channels size_x_pos tile_x tile_y
                br_x_nonneg tile_x_in) as Ux.
  pose proof (rel_y_upper tl_proj_x tl_proj_y br_proj_x br_proj_y
                size_x size_y channels size_y_pos tile_x tile_y
                br_y_nonneg tile_y_in) as Uy.
  fold g in Lx, Ly, Ux, Uy. fold p in Lx, Ly, Ux, Uy.
  assert (Hw : 0 <= img_w g) by (simpl; lia).
  change (img_y_l p) with (Z.max 0 (tl_rel_y p)).
  change (img_x_l p) with (Z.max 0 (tl_rel_x p)).
  change (img_y_r p) with (Z.min (img_h g + 1) (tl_rel_y p + size_y)).
  change (img_x_r p) with (Z.min (img_w g + 1) (tl_rel_x p + size_x)).
  change (cr_y_l p) with (Z.max 0 (- tl_rel_y p)).
  change (cr_x_l p) with (Z.max 0 (- tl_rel_x p)).
  change (cr_y_r p) with (size_y + Z.min 0 (img_h g - (tl_rel_y p + size_y))).
  change (cr_x_r p) with (size_x + Z.min 0 (img_w g - (tl_rel_x p + size_x))).
  split; apply axis_lengths_agree; lia.
Qed.

(** A three-axis tile of the probed size is copied. *)
Lemma copy_tile_returns (c : Z) :
  copy_tile [img_h g; img_w g; c] [size_y; size_x; c] p
  = Py.Returned (dest_rect (img_h g) (img_w g) p).
Proof.
  destruct visible_part as [Ey Ex].
  unfold copy_tile, dest_shape, crop_shape, Np.slice2_shape.
  rewrite Ey, Ex, broadcastable_refl. reflexivity.
Qed.

(** A two-axis tile of the probed size, as the decoder gives for
    single-channel images, is copied into the one-channel canvas only when
    its visible part is a single pixel; otherwise the assignment raises. *)
Theorem grey_tile_not_copied :
  (Py.slice_len (img_y_l p) (img_y_r p) (img_h g) <> 1 \/
   Py.slice_len (img_x_l p) (img_x_r p) (img_w g) <> 1) ->
  copy_tile [img_h g; img_w g; 1] [size_y; size_x] p
  = Py.Raised "could not broadcast input array".
Proof.
  destruct visible_part as [Ey Ex].
  unfold copy_tile, dest_shape, crop_shape, Np.slice2_shape, Np.broadcastable.
  rewrite Ey, Ex.
  set (ny := Py.slice_len (cr_y_l p) (cr_y_r p) size_y).
  set (nx := Py.slice_len (cr_x_l p) (cr_x_r p) size_x).
  intros H. cbn [rev app Np.broadcastable_rev].
  destruct (Z.eqb_spec nx 1) as [X1 | X1]; cbn [orb andb]; [| reflexivity].
  destruct (Z.eqb_spec ny nx) as [Y1 | Y1]; cbn [orb andb]; [lia|].
  destruct (Z.eqb_spec ny 1) as [Y2 | Y2]; cbn [orb andb]; [lia | reflexivity].
Qed.

End CopyMore.

Section RowsMore.

Variables (w : World) (zoom : Z).
Variables tl_proj_x tl_proj_y br_proj_x br_proj_y : Q.
Variables size_x size_y channels : Z.

Let g := geometry tl_proj_x tl_proj_y br_proj_x br_proj_y size_x size_y channels.
Let img := [img_h g; img_w g; channels].

Hypothesis size_x_pos : 0 < size_x.
Hypothesis size_y_pos : 0 < size_y.
Hypothesis br_x_nonneg : (0 <= br_proj_x)%Q.
Hypothesis br_y_nonneg : (0 <= br_proj_y)%Q.
Hypothesis img_h_ok : 0 <= img_h g.

(** Every tile of the range decodes to an array of the probed size. *)
Hypothesis all_decoded :
  forall tx ty, In tx (tile_range_x g) -> In ty (tile_range_y g) ->
  exists status, get w tx ty zoom = Fetched status (Some [size_y; size_x; channels]).

(** Then a row thread reports and writes once per column and ends
    normally. *)
Lemma build_row_from_all_decoded (tile_y : Z) (xs : list Z) (st : State) :
  In tile_y (tile_range_y g) ->
  (forall tx, In tx xs -> In tx (tile_range_x g)) ->
  let res := build_row_from w g zoom img tile_y xs st in
  snd res = Py.Returned tt /\
  List.length (bar_updates (fst res))
    = (List.length (bar_updates st) + List.length xs)%nat /\
  List.length (written (fst res))
    = (List.length (written st) + List.length xs)%nat.
Proof.
  intros Ty. revert st.
  induction xs as [| tile_x xs IH]; intros st Hx; cbn [build_row_from].
  - simpl. repeat split; lia.
  - destruct (all_decoded tile_x tile_y (Hx tile_x (or_introl eq_refl)) Ty)
      as [status E].
    rewrite E. cbv zeta.
    pose proof (copy_tile_returns tl_proj_x tl_proj_y br_proj_x br_proj_y
                  size_x size_y channels size_x_pos size_y_pos
                  br_x_nonneg br_y_nonneg img_h_ok tile_x tile_y
                  (Hx tile_x (or_introl eq_refl)) Ty channels) as C.
    fold g in C. fold img in C. rewrite C.
    specialize (IH (record_write (dest_rect (img_h g) (img_w g) (place g tile_x tile_y))
                      (report st))
                   (fun tx H => Hx tx (or_intror H))).
    cbv zeta in IH. destruct IH as (I0 & I1 & I2).
    cbn [record_write report bar_updates written List.length] in I1, I2.
    cbn [List.length]. repeat split; [exact I0 | lia | lia].
Qed.

Lemma run_rows_all_decoded (ys : list Z) (st : State) :
  (forall ty, In ty ys -> In ty (tile_range_y g)) ->
  let st' := run_rows w g zoom img ys st in
  List.length (bar_updates st')
    = (List.length (bar_updates st) + List.length ys * List.length (tile_range_x g))%nat /\
  List.length (written st')
    = (List.length (written st) + List.length ys * List.length (tile_range_x g))%nat.
Proof.
  revert st. induction ys as [| tile_y ys IH]; intros st Hy; cbn [run_rows].
  - simpl. split; lia.
  - pose proof (build_row_from_all_decoded tile_y (tile_range_x g) st
                  (Hy tile_y (or_introl eq_refl)) (fun tx H => H)) as B.
    cbv zeta in B. destruct B as (_ & B1 & B2).
    fold (build_row w g zoom img tile_y st) in B1, B2.
    specialize (IH (fst (build_row w g zoom img tile_y st))
                   (fun ty H => Hy ty (or_intror H))).
    cbv zeta in IH. destruct IH as (I1 & I2).
    cbn [List.length]. split; lia.
Qed.

End RowsMore.

(** When the probe gives the tile size, the second corner is not west or
    north of the first and every tile of the range decodes to an array of
    the probed size, the run completes with one progress report and one
    write per tile of the range, as many as the total the bar was created
    with. *)
Theorem all_tiles_reported
    (w : World) (tl_proj_x tl_proj_y br_proj_x br_proj_y : Q) (zoom : Z)
    (size_x size_y channels : Z) :
  let g := geometry tl_proj_x tl_proj_y br_proj_x br_proj_y size_x size_y channels in
  get_image_info w (Py.int tl_proj_x) (Py.int tl_proj_y) zoom
    = Py.Returned (size_x, size_y, channels) ->
  0 < size_x -> 0 < size_y -> 0 <= channels ->
  (0 <= br_proj_x)%Q -> (0 <= br_proj_y)%Q ->
  (tl_proj_x <= br_proj_x)%Q -> (tl_proj_y <= br_proj_y)%Q ->
  (forall tx ty, In tx (tile_range_x g) -> In ty (tile_range_y g) ->
     exists status,
       get w tx ty zoom = Fetched status (Some [size_y; size_x; channels])) ->
  exists r,
    download_map_region w tl_proj_x tl_proj_y br_proj_x br_proj_y zoom
      = Py.Returned r /\
    let n := (List.length (tile_range_y g) * List.length (tile_range_x g))%nat in
    List.length (bar_updates (run_state r)) = n /\
    List.length (written (run_state r)) = n /\
    Z.of_nat n = tiles_total g /\ 1 <= tiles_total g.
Proof.
  intros g Hp Hx Hy Hc Bx By Ox Oy Hall.
  pose proof (int_mono _ _ Ox) as Mx. pose proof (int_mono _ _ Oy) as My.
  assert (Hh : 0 <= img_h g)
    by (apply img_h_nonneg; [lia | exact Oy]).
  assert (Et : Z.of_nat (List.length (tile_range_y g) * List.length (tile_range_x g))
               = tiles_total g).
  { rewrite Nat2Z.inj_mul. unfold tile_range_x, tile_range_y.
    rewrite !range_length. cbn [tiles_total tl_tile_x br_tile_x tl_tile_y br_tile_y g].
    rewrite !Z.max_r by (simpl; lia). simpl. ring. }
  assert (Ht : 1 <= tiles_total g) by (simpl; nia).
  pose proof (download_completes w tl_proj_x tl_proj_y br_proj_x br_proj_y
                zoom size_x size_y channels Hp ltac:(fold g; lia) Hh Hc) as D.
  eexists. split; [exact D|]. cbn [run_state]. fold g.
  pose proof (run_rows_all_decoded w zoom tl_proj_x tl_proj_y br_proj_x br_proj_y
                size_x size_y channels Hx Hy Bx By Hh Hall
                (tile_range_y g) initial_state (fun ty H => H)) as R.
  cbv zeta in R. fold g in R. destruct R as (R1 & R2).
  cbn [initial_state bar_updates written List.length Nat.add] in R1, R2.
  split; [exact R1|]. split; [exact R2|]. split; [exact Et | exact Ht].
Qed.

(** A tile whose innermost axis is neither as long as the canvas's nor of
    length 1 cannot be assigned, wherever it is placed. *)
Lemma copy_tile_channel_mismatch (h wd c_img th tw c : Z) (p : Placement) :
  c <> c_img -> c <> 1 ->
  copy_tile [h; wd; c_img] [th; tw; c] p
  = Py.Raised "could not broadcast input array".
Proof.
  intros H1 H2.
  unfold copy_tile, dest_shape, crop_shape, Np.slice2_shape, Np.broadcastable.
  cbn [rev app Np.broadcastable_rev].
  destruct (Z.eqb_spec c c_img); [contradiction|].
  destruct (Z.eqb_spec c 1); [contradiction|].
  reflexivity.
Qed.

Section FallbackMore.

Variables (w : World) (g : Geometry) (zoom : Z) (h wd : Z).

(** Every tile that decodes has three axes, the third not of length 1. *)
Hypothesis colour_tiles :
  forall tx ty status tile,
    get w tx ty zoom = Fetched status (Some tile) ->
    exists th tw c, tile = [th; tw; c] /\ c <> 1.

(** Then nothing is written into a one-channel canvas. *)
Lemma build_row_from_writes_nothing (tile_y : Z) (xs : list Z) (st : State) :
  written (fst (build_row_from w g zoom [h; wd; 1] tile_y xs st)) = written st.
Proof.
  revert st. induction xs as [| tile_x xs IH]; intros st; cbn [build_row_from].
  - reflexivity.
  - destruct (get w tile_x tile_y zoom) as [e | status [tile |]] eqn:E.
    + reflexivity.
    + destruct (colour_tiles tile_x tile_y status tile E) as (th & tw & c & -> & Hc).
      cbv zeta.
      rewrite (copy_tile_channel_mismatch h wd 1 th tw c _ Hc Hc).
      reflexivity.
    + apply IH.
Qed.

Lemma run_rows_writes_nothing (ys : list Z) (st : State) :
  written (run_rows w g zoom [h; wd; 1] ys st) = written st.
Proof.
  revert st. induction ys as [| tile_y ys IH]; intros st; cbn [run_rows].
  - reflexivity.
  - rewrite IH. apply build_row_from_writes_nothing.
Qed.

End FallbackMore.

(** When the probe tile does not decode while the server's tiles are colour
    images, the run goes on with a one-channel canvas computed for 256-pixel
    tiles, and no tile is ever written into it: the image saved is blank. *)
Theorem probe_fallback_leaves_canvas_blank
    (w : World) (tl_proj_x tl_proj_y br_proj_x br_proj_y : Q) (zoom : Z)
    (status : Z) (r : Run) :
  get w (Py.int tl_proj_x) (Py.int tl_proj_y) zoom = Fetched status None ->
  (forall tx ty st tile,
     get w tx ty zoom = Fetched st (Some tile) ->
     exists th tw c, tile = [th; tw; c] /\ c <> 1) ->
  download_map_region w tl_proj_x tl_proj_y br_proj_x br_proj_y zoom
    = Py.Returned r ->
  run_geometry r = geometry tl_proj_x tl_proj_y br_proj_x br_proj_y 256 256 1 /\
  run_img r = [img_h (run_geometry r); img_w (run_geometry r); 1] /\
  written (run_state r) = [].
Proof.
  intros Hp Hc D.
  destruct (download_returned _ _ _ _ _ _ _ D) as (sx & sy & ch & I & R).
  assert (E : Py.Returned (sx, sy, ch) = Py.Returned (256, 256, 1)).
  { rewrite <- I. unfold get_image_info. rewrite Hp. reflexivity. }
  inversion E; subst sx sy ch; clear E.
  cbv zeta in R. destruct R as (_ & _ & _ & _ & ->).
  cbn [run_geometry run_img run_state].
  split; [reflexivity|]. split; [reflexivity|].
  apply (run_rows_writes_nothing w _ zoom _ _ Hc).
Qed.

(** The exit status is 0 exactly when the probe does not raise, the
    progress bar accepts the tile total and the canvas can be allocated,
    and it is 1 otherwise: no tile failure, no exception in a row thread and
    no result of the encoder changes it. *)
Theorem exit_status_cases
    (w : World) (tl_proj_x tl_proj_y br_proj_x br_proj_y : Q) (zoom : Z) :
  (snd (main w tl_proj_x tl_proj_y br_proj_x br_proj_y zoom) = 0 <->
   exists size_x size_y channels,
     get_image_info w (Py.int tl_proj_x) (Py.int tl_proj_y) zoom
       = Py.Returned (size_x, size_y, channels) /\
     0 <= channels /\
     0 <= (Py.int br_proj_x - Py.int tl_proj_x + 1)
          * (Py.int br_proj_y - Py.int tl_proj_y + 1) /\
     Py.int (Py.fmul tl_proj_y size_y) <= Py.int (Py.fmul br_proj_y size_y)) /\
  (snd (main w tl_proj_x tl_proj_y br_proj_x br_proj_y zoom) <> 0 ->
   snd (main w tl_proj_x tl_proj_y br_proj_x br_proj_y zoom) = 1).
Proof.
  unfold main.
  destruct (download_map_region w tl_proj_x tl_proj_y br_proj_x br_proj_y zoom)
    as [r | e] eqn:D; cbn [snd].
  - split; [| intros H; contradiction].
    split; [intros _ | reflexivity].
    destruct (download_returned _ _ _ _ _ _ _ D) as (sx & sy & ch & I & R).
    cbv zeta in R. destruct R as (Ht & Hh & _ & Hc & _).
    exists sx, sy, ch. split; [exact I|]. split; [exact Hc|].
    split; [exact Ht | simpl in Hh; lia].
  - split; [| reflexivity].
    split; [discriminate|].
    intros (sx & sy & ch & I & Hc & Ht & Hh). exfalso.
    pose proof (download_completes w tl_proj_x tl_proj_y br_proj_x br_proj_y
                  zoom sx sy ch I Ht ltac:(simpl; lia) Hc) as C.
    rewrite D in C. discriminate.
Qed.

(** * Further properties of the projection *)

Section ProjectionMore.
Local Open Scope R_scope.
Import Projection.

Lemma clamped_siny_odd (lat : R) : clamped_siny (- lat) = - clamped_siny lat.
Proof.
  unfold clamped_siny.
  replace (- lat * PI / 180) with (- (lat * PI / 180)) by lra.
  rewrite sin_neg.
  set (v := sin (lat * PI / 180)).
  destruct (Rle_dec v (- 0.9999)) as [L | L].
  - rewrite (Rmax_right v) by lra. rewrite (Rmax_left (- v)) by lra.
    rewrite (Rmin_left (- 0.9999)) by lra. rewrite (Rmin_right (- v)) by lra. lra.
  - destruct (Rle_dec v 0.9999) as [U | U].
    + rewrite (Rmax_left v) by lra. rewrite (Rmax_left (- v)) by lra.
      rewrite (Rmin_left v) by lra. rewrite (Rmin_left (- v)) by lra. lra.
    + rewrite (Rmax_left v) by lra. rewrite (Rmax_right (- v)) by lra.
      rewrite (Rmin_right v) by lra. rewrite (Rmin_left (- 0.9999)) by lra. lra.
Qed.

Lemma log_ratio_odd (t : R) :
  - 0.9999 <= t <= 0.9999 ->
  ln ((1 + - t) / (1 - - t)) = - ln ((1 + t) / (1 - t)).
Proof.
  intros H.
  replace ((1 + - t) / (1 - - t)) with (/ ((1 + t) / (1 - t))) by (field; lra).
  apply ln_Rinv. apply ratio_pos. exact H.
Qed.

(** The projection is symmetric about the equator, which it sends to the
    middle of the grid, and its [x] does not depend on the latitude. *)
Theorem projection_symmetric (lat lon s : R) :
  fst (lat_lon_to_tile_coords (- lat) lon s) = fst (lat_lon_to_tile_coords lat lon s) /\
  snd (lat_lon_to_tile_coords (- lat) lon s) = s - snd (lat_lon_to_tile_coords lat lon s) /\
  snd (lat_lon_to_tile_coords 0 lon s) = s / 2.
Proof.
  pose proof PI_RGT_0 as HP.
  assert (Sym : forall l, snd (lat_lon_to_tile_coords (- l) lon s)
                          = s - snd (lat_lon_to_tile_coords l lon s)).
  { intros l. rewrite !y_of_siny. rewrite clamped_siny_odd.
    rewrite (log_ratio_odd _ (clamped_siny_bounds l)).
    replace 0.5 with (1 / 2) by lra. field. lra. }
  split; [reflexivity|]. split; [apply Sym|].
  pose proof (Sym 0) as E. rewrite Ropp_0 in E. lra.
Qed.

(** For a zoom the float arithmetic can take and a longitude from -180 to
    180 the tile column lies between 0 and [2^zoom]; on the antimeridian,
    at longitude 180, it is [2^zoom], one past the last column of the
    grid. *)
Theorem tile_column_range (lat lon : R) (zoom : Z) :
  (0 <= zoom < 1024)%Z -> -180 <= lon <= 180 ->
  let x := fst (lat_lon_to_tile_coords lat lon (IZR (scale zoom))) in
  (0 <= RealPy.int x <= 2 ^ zoom)%Z /\
  (lon = 180 -> RealPy.int x = (2 ^ zoom)%Z).
Proof.
  intros [Hz _] Hl x.
  pose proof (scale_pos zoom Hz) as Hs.
  assert (Ex : x = IZR (scale zoom) * (0.5 + lon / 360)) by reflexivity.
  set (t := 0.5 + lon / 360) in Ex.
  assert (T0 : 0 <= t <= 1) by (unfold t; lra).
  assert (X0 : 0 <= x) by (rewrite Ex; apply Rmult_le_pos; lra).
  assert (X1 : x <= IZR (scale zoom)) by (rewrite Ex; nra).
  unfold RealPy.int. destruct (Rle_dec 0 x) as [_ | N]; [| contradiction].
  pose proof (base_Int_part x) as [B1 B2].
  rewrite <- (scale_pow zoom Hz).
  split.
  - split.
    + assert (H : (-1 < Int_part x)%Z) by (apply lt_IZR; lra). lia.
    + apply le_IZR. lra.
  - intros L. assert (T1 : t = 1) by (unfold t; lra).
    assert (X2 : x = IZR (scale zoom)) by (rewrite Ex, T1; lra).
    symmetry. apply Int_part_spec. rewrite X2. lra.
Qed.
End ProjectionMore.

(** * The coordinate texts *)

Section RegexFacts.
Local Open Scope char_scope.
Import Cli.

(** Soundness of the matcher: a success consumed a text the expression
    matches, and the continuation succeeded on the rest. *)
Lemma star_sound (r : Re.regex)
    (IH : forall s k x, Re.run r s k = Some x ->
          exists m s', s = m ++ s' /\ matches r m /\ k s' = Some x)
    (k : list ascii -> option (list ascii)) (n : nat) :
  forall s x, Re.star (Re.run r) k n s = Some x ->
  exists m s', s = m ++ s' /\ matches (Re.Star r) m /\ k s' = Some x.
Proof.
  induction n as [| n IHn]; intros s x; cbn [Re.star].
  - intros H. exists [], s. repeat split; [constructor | exact H].
  - destruct (Re.run r s _) as [y |] eqn:E.
    + intros Hy. inversion Hy; subst y; clear Hy.
      destruct (IH _ _ _ E) as (m1 & s1 & -> & M1 & K1).
      destruct (List.length s1 <? List.length (m1 ++ s1))%nat; [| discriminate].
      destruct (IHn _ _ K1) as (m2 & s2 & -> & M2 & K2).
      exists (m1 ++ m2), s2. rewrite <- app_assoc.
      repeat split; [constructor; assumption | exact K2].
    + intros H. exists [], s. repeat split; [constructor | exact H].
Qed.

Lemma run_sound (r : Re.regex) :
  forall s k x, Re.run r s k = Some x ->
  exists m s', s = m ++ s' /\ matches r m /\ k s' = Some x.
Proof.
  induction r as [p | r1 IH1 r2 IH2 | r1 IH1 r2 IH2 | r1 IH1 | r1 IH1];
    intros s k x; cbn [Re.run].
  - destruct s as [| c s']; [discriminate|].
    destruct (p c) eqn:P; [| discriminate].
    intros H. exists [c], s'. repeat split; [constructor; exact P | exact H].
  - intros H. destruct (IH1 _ _ _ H) as (m1 & s1 & -> & M1 & K1).
    destruct (IH2 _ _ _ K1) as (m2 & s2 & -> & M2 & K2).
    exists (m1 ++ m2), s2. rewrite <- app_assoc.
    repeat split; [constructor; assumption | exact K2].
  - destruct (Re.run r1 s k) as [y |] eqn:E.
    + intros Hy. inversion Hy; subst y; clear Hy.
      destruct (IH1 _ _ _ E) as (m & s' & -> & M & K).
      exists m, s'. repeat split; [apply MAltL; exact M | exact K].
    + intros H. destruct (IH2 _ _ _ H) as (m & s' & -> & M & K).
      exists m, s'. repeat split; [apply MAltR; exact M | exact K].
  - destruct (Re.run r1 s k) as [y |] eqn:E.
    + intros Hy. inversion Hy; subst y; clear Hy.
      destruct (IH1 _ _ _ E) as (m & s' & -> & M & K).
      exists m, s'. repeat split; [apply MOptSome; exact M | exact K].
    + intros H. exists [], s. repeat split; [constructor | exact H].
  - apply star_sound. exact IH1.
Qed.

Lemma match_at_sound (r : Re.regex) (s rest : list ascii) :
  Re.match_at r s = Some rest -> exists m, s = m ++ rest /\ matches r m.
Proof.
  intros H. destruct (run_sound r s Some rest H) as (m & s' & -> & M & K).
  inversion K; subst s'. exists m. split; [reflexivity | exact M].
Qed.

(** What a repeated character class matches. *)
Lemma matches_star_chr (p : ascii -> bool) (m : list ascii) :
  matches (Re.Star (Re.Chr p)) m -> Forall (fun c => p c = true) m.
Proof.
  intros H. remember (Re.Star (Re.Chr p)) as r eqn:R.
  induction H as [| | | | | | r0 | r0 m1 m2 H1 _ H2 IH2]; try discriminate.
  - constructor.
  - inversion R; subst r0. inversion H1; subst.
    constructor; [assumption | apply IH2; reflexivity].
Qed.

Lemma matches_chr_inv (p : ascii -> bool) (m : list ascii) :
  matches (Re.Chr p) m -> exists c, m = [c] /\ p c = true.
Proof. intros H. inversion H; subst. eexists; split; [reflexivity | assumption]. Qed.

Lemma matches_cat_inv (r1 r2 : Re.regex) (m : list ascii) :
  matches (Re.Cat r1 r2) m ->
  exists m1 m2, m = m1 ++ m2 /\ matches r1 m1 /\ matches r2 m2.
Proof. intros H. inversion H; subst. eexists _, _; repeat split; eassumption. Qed.

Lemma matches_alt_inv (r1 r2 : Re.regex) (m : list ascii) :
  matches (Re.Alt r1 r2) m -> matches r1 m \/ matches r2 m.
Proof. intros H. inversion H; subst; [left | right]; assumption. Qed.

Lemma matches_opt_inv (r : Re.regex) (m : list ascii) :
  matches (Re.Opt r) m -> m = [] \/ matches r m.
Proof. intros H. inversion H; subst; [left; reflexivity | right; assumption]. Qed.

(** What the pattern of [lat_long] matches. *)
Lemma coordinate_pattern_shape (m : list ascii) :
  matches coordinate_pattern m -> decimal m \/ d_run m.
Proof.
  unfold coordinate_pattern, number_pattern, d_pattern, Re.Plus. intros H.
  apply matches_alt_inv in H. destruct H as [H | H].
  - left.
    apply matches_cat_inv in H. destruct H as (sg & m1 & -> & S1 & H).
    apply matches_cat_inv in H. destruct H as (ip & m2 & -> & I1 & H).
    apply matches_cat_inv in H. destruct H as (dot & m3 & -> & D1 & H).
    apply matches_cat_inv in H. destruct H as (f1 & f2 & -> & F1 & F2).
    apply matches_chr_inv in D1. destruct D1 as (c & -> & D1).
    apply Ascii.eqb_eq in D1. subst c.
    apply matches_chr_inv in F1. destruct F1 as (f & -> & F1).
    apply matches_star_chr in I1. apply matches_star_chr in F2.
    exists sg, ip, (f :: f2). repeat split; auto; [| discriminate].
    apply matches_opt_inv in S1. destruct S1 as [-> | S1]; [left; reflexivity|].
    apply matches_chr_inv in S1. destruct S1 as (c & -> & P).
    unfold is_sign in P. apply orb_true_iff in P.
    destruct P as [P | P]; apply Ascii.eqb_eq in P; subst c; auto.
  - right.
    apply matches_cat_inv in H. destruct H as (d1 & d2 & -> & D1 & D2).
    apply matches_chr_inv in D1. destruct D1 as (c & -> & P).
    apply Ascii.eqb_eq in P. subst c.
    apply matches_star_chr in D2.
    split; [discriminate|]. constructor; [reflexivity|].
    eapply Forall_impl; [| exact D2]. intros a Ha. apply Ascii.eqb_eq. exact Ha.
Qed.

End RegexFacts.

(** ** [lat_long] *)

Section LatLongFacts.
Local Open Scope char_scope.
Import Cli.

Let digit (c : ascii) : Prop := is_digit c = true.

Lemma digit_not_sign (c : ascii) : is_digit c = true -> is_sign c = false.
Proof.
  destruct c as [[] [] [] [] [] [] [] []]; vm_compute; intros H;
    solve [reflexivity | discriminate].
Qed.

Lemma digit_not_dot (c : ascii) : is_digit c = true -> is_dot c = false.
Proof.
  destruct c as [[] [] [] [] [] [] [] []]; vm_compute; intros H;
    solve [reflexivity | discriminate].
Qed.

Lemma digit_not_d (c : ascii) : is_digit c = true -> c <> "d".
Proof.
  unfold is_digit. intros H ->. discriminate.
Qed.

Lemma plain_inv (c : ascii) :
  plain c = true ->
  is_digit c = false /\ is_sign c = false /\ c <> "." /\ c <> "d".
Proof.
  unfold plain. intros H. apply negb_true_iff in H.
  apply orb_false_iff in H. destruct H as [H D].
  apply orb_false_iff in H. destruct H as [H P].
  apply orb_false_iff in H. destruct H as [G S].
  repeat split; auto.
  - intros ->. discriminate.
  - intros ->. discriminate.
Qed.

(** The first character of a match. *)
Lemma decimal_head (m : list ascii) :
  decimal m ->
  exists c m', m = c :: m' /\ (is_sign c = true \/ is_digit c = true \/ c = ".").
Proof.
  intros (sg & ip & fp & -> & S & I & _).
  destruct S as [-> | [-> | ->]].
  - destruct ip as [| d ip]; cbn [app].
    + eexists _, _; split; [reflexivity | auto].
    + inversion I; subst. eexists _, _; split; [reflexivity | auto].
  - eexists _, _; split; [reflexivity | left; reflexivity].
  - eexists _, _; split; [reflexivity | left; reflexivity].
Qed.

(** A number holds a point and no d; a run of d holds a d. *)
Lemma decimal_chars (m : list ascii) :
  decimal m -> In "." m /\ ~ In "d" m.
Proof.
  intros (sg & ip & fp & -> & S & I & F & _). split.
  - apply in_or_app. right. apply in_or_app. right. left. reflexivity.
  - intros H. apply in_app_or in H. destruct H as [H | H].
    + destruct S as [-> | [-> | ->]]; simpl in H; intuition discriminate.
    + apply in_app_or in H. destruct H as [H | [H | H]].
      * rewrite Forall_forall in I. exact (digit_not_d _ (I _ H) eq_refl).
      * discriminate.
      * rewrite Forall_forall in F. exact (digit_not_d _ (F _ H) eq_refl).
Qed.

Lemma d_run_chars (m : list ascii) : d_run m -> In "d" m /\ ~ In "." m.
Proof.
  intros [N F]. split.
  - destruct m as [| c m]; [contradiction|]. inversion F; subst. left. reflexivity.
  - intros H. rewrite Forall_forall in F. specialize (F _ H). discriminate.
Qed.

(** A match of the pattern at the start of a text. *)
Lemma match_at_shape (s rest : list ascii) :
  Re.match_at coordinate_pattern s = Some rest ->
  exists m, s = m ++ rest /\ m <> [] /\ (decimal m \/ d_run m).
Proof.
  intros H. destruct (match_at_sound _ _ _ H) as (m & -> & M).
  exists m. split; [reflexivity|].
  pose proof (coordinate_pattern_shape m M) as Sh. split; [| exact Sh].
  destruct Sh as [D | [N _]]; [| exact N].
  destruct (decimal_head m D) as (c & m' & -> & _). discriminate.
Qed.

(** One step of [findall] at a match, and at none. *)
Lemma findall_from_match (fuel : nat) (m rest : list ascii) :
  m <> [] ->
  Re.match_at coordinate_pattern (m ++ rest) = Some rest ->
  Re.findall_from (S fuel) coordinate_pattern (m ++ rest)
  = m :: Re.findall_from fuel coordinate_pattern rest.
Proof.
  intros N H. cbn [Re.findall_from]. rewrite H.
  rewrite length_app. replace (List.length m + List.length rest - List.length rest)%nat
    with (List.length m) by lia.
  assert (F : firstn (List.length m) (m ++ rest) = m).
  { clear. induction m as [| c m IH]; [reflexivity|]. simpl. rewrite IH. reflexivity. }
  destruct m as [| c m]; [contradiction|].
  cbn [List.length] in *. rewrite F. reflexivity.
Qed.

Lemma findall_from_nil (fuel : nat) :
  Re.findall_from fuel coordinate_pattern [] = [].
Proof.
  destruct fuel; reflexivity.
Qed.

(** A text with neither a point nor a d holds no match. *)
Lemma findall_nothing (fuel : nat) (s : list ascii) :
  ~ In "." s -> ~ In "d" s -> Re.findall_from fuel coordinate_pattern s = [].
Proof.
  revert s. induction fuel as [| fuel IH]; intros s Np Nd; [reflexivity|].
  cbn [Re.findall_from].
  destruct (Re.match_at coordinate_pattern s) as [rest |] eqn:E.
  - exfalso. destruct (match_at_shape s rest E) as (m & -> & _ & [D | R]).
    + apply Np. apply in_or_app. left. apply (decimal_chars m D).
    + apply Nd. apply in_or_app. left. apply (d_run_chars m R).
  - destruct s as [| c s]; [reflexivity|].
    apply IH; intros H; [apply Np | apply Nd]; right; exact H.
Qed.

(** A d at the start of a text is matched. *)
Lemma star_some (step : list ascii -> (list ascii -> option (list ascii)) -> option (list ascii))
    (n : nat) (s : list ascii) :
  Re.star step Some n s <> None.
Proof.
  destruct n; cbn [Re.star]; [discriminate|].
  destruct (step s _); discriminate.
Qed.

(** The first alternative fails on a text that starts with neither a
    sign, a digit nor a point. *)
Lemma number_pattern_fails (c : ascii) (s : list ascii)
    (k : list ascii -> option (list ascii)) :
  is_sign c = false -> is_digit c = false -> is_dot c = false ->
  Re.run number_pattern (c :: s) k = None.
Proof.
  intros Hs Hd Hp. unfold number_pattern.
  cbn [Re.run Re.star List.length]. rewrite Hs, Hd, Hp. reflexivity.
Qed.

Lemma match_at_d (s : list ascii) :
  Re.match_at coordinate_pattern ("d" :: s) <> None.
Proof.
  unfold Re.match_at, coordinate_pattern.
  cbn [Re.run]. rewrite number_pattern_fails by reflexivity.
  unfold d_pattern, Re.Plus. cbn [Re.run].
  change (is_d "d") with true. cbv iota.
  apply star_some.
Qed.

(** Every d of the text ends up in a match that is a run of d. *)
Lemma findall_has_d_run (fuel : nat) (s : list ascii) :
  (List.length s < fuel)%nat -> In "d" s ->
  exists m, In m (Re.findall_from fuel coordinate_pattern s) /\ d_run m.
Proof.
  revert s. induction fuel as [| fuel IH]; intros s Hf Hd; [lia|].
  destruct (Re.match_at coordinate_pattern s) as [rest |] eqn:E.
  - destruct (match_at_shape s rest E) as (m & -> & N & Sh).
    rewrite (findall_from_match fuel m rest N E).
    destruct Sh as [D | R].
    + apply in_app_or in Hd. destruct Hd as [Hd | Hd].
      * exfalso. exact (proj2 (decimal_chars m D) Hd).
      * assert (1 <= List.length m)%nat
          by (destruct m; [contradiction | simpl; lia]).
        destruct (IH rest) as (m' & I & R); [rewrite length_app in Hf; lia | exact Hd |].
        exists m'. split; [right; exact I | exact R].
    + exists m. split; [left; reflexivity | exact R].
  - destruct s as [| c s]; [contradiction|].
    destruct Hd as [-> | Hd]; [exfalso; exact (match_at_d s E)|].
    cbn [Re.findall_from]. rewrite E.
    apply IH; [simpl in Hf; lia | exact Hd].
Qed.

Lemma float_of_d_run (m : list ascii) :
  d_run m -> float_of_match m = Py.Raised "could not convert string to float".
Proof.
  intros [N F]. destruct m as [| c m]; [contradiction|].
  inversion F; subst. reflexivity.
Qed.

(** Digits are taken greedily. *)
Lemma star_digits (k : list ascii -> option (list ascii))
    (ds tail : list ascii) (x : list ascii) :
  Forall digit ds ->
  match tail with c :: _ => is_digit c = false | [] => True end ->
  k tail = Some x ->
  forall n, (List.length ds <= n)%nat ->
  Re.star (Re.run (Re.Chr is_digit)) k n (ds ++ tail) = Some x.
Proof.
  intros D T K. induction D as [| d ds Hd D IH]; intros n Hn; cbn [app].
  - destruct n; cbn [Re.star]; [exact K|].
    destruct tail as [| c t]; cbn [Re.run]; [exact K|].
    rewrite T. exact K.
  - destruct n as [| n]; [simpl in Hn; lia|].
    cbn [Re.star Re.run]. unfold digit in Hd. rewrite Hd.
    replace (List.length (ds ++ tail) <? List.length (d :: ds ++ tail))%nat
      with true by (symmetry; apply Nat.ltb_lt; simpl; lia).
    rewrite IH by (simpl in Hn; lia). reflexivity.
Qed.

(** A number followed by something that is not a digit is matched whole. *)
Lemma number_body_matched (ip fp tail : list ascii) :
  Forall digit ip -> Forall digit fp -> fp <> [] ->
  match tail with c :: _ => is_digit c = false | [] => True end ->
  Re.run (Re.Cat (Re.Star (Re.Chr is_digit))
            (Re.Cat (Re.Chr is_dot) (Re.Plus (Re.Chr is_digit))))
    (ip ++ "." :: fp ++ tail) Some = Some tail.
Proof.
  intros I F N T. destruct fp as [| f fp]; [contradiction|].
  inversion F as [| f' fp' Hf F']; subst.
  cbn [Re.run].
  apply star_digits; [exact I | reflexivity | | rewrite length_app; lia].
  unfold Re.Plus. cbn [Re.run app]. change (is_dot ".") with true. cbv iota.
  unfold digit in Hf. rewrite Hf.
  apply star_digits; [exact F' | exact T | reflexivity | rewrite length_app; lia].
Qed.

Lemma run_cat (r1 r2 : Re.regex) (s : list ascii)
    (k : list ascii -> option (list ascii)) :
  Re.run (Re.Cat r1 r2) s k = Re.run r1 s (fun s' => Re.run r2 s' k).
Proof. reflexivity. Qed.

Lemma run_opt_chr_miss (p : ascii -> bool) (c : ascii) (s : list ascii)
    (k : list ascii -> option (list ascii)) :
  p c = false -> Re.run (Re.Opt (Re.Chr p)) (c :: s) k = k (c :: s).
Proof. intros H. cbn [Re.run]. rewrite H. reflexivity. Qed.

Lemma run_opt_chr_hit (p : ascii -> bool) (c : ascii) (s x : list ascii)
    (k : list ascii -> option (list ascii)) :
  p c = true -> k s = Some x -> Re.run (Re.Opt (Re.Chr p)) (c :: s) k = Some x.
Proof. intros H K. cbn [Re.run]. rewrite H, K. reflexivity. Qed.

Lemma number_matched (sg ip fp tail : list ascii) :
  sg = [] \/ sg = ["+"] \/ sg = ["-"] ->
  Forall digit ip -> Forall digit fp -> fp <> [] ->
  match tail with c :: _ => is_digit c = false | [] => True end ->
  Re.match_at coordinate_pattern ((sg ++ ip ++ "." :: fp) ++ tail) = Some tail.
Proof.
  intros S I F N T.
  pose proof (number_body_matched ip fp tail I F N T) as B.
  unfold Re.match_at, coordinate_pattern. cbn [Re.run].
  assert (E : Re.run number_pattern ((sg ++ ip ++ "." :: fp) ++ tail) Some = Some tail).
  { unfold number_pattern. rewrite <- !app_assoc. cbn [app]. rewrite run_cat.
    destruct S as [-> | [-> | ->]]; cbn [app].
    - destruct ip as [| d ip]; cbn [app] in *.
      + rewrite run_opt_chr_miss by reflexivity. exact B.
      + inversion I; subst.
        rewrite run_opt_chr_miss by (apply digit_not_sign; assumption). exact B.
    - apply run_opt_chr_hit; [reflexivity | exact B].
    - apply run_opt_chr_hit; [reflexivity | exact B]. }
  rewrite E. reflexivity.
Qed.

(** [float] of a number. *)
Lemma split_point_digits (acc ip fp : list ascii) :
  Forall digit ip ->
  split_point acc (ip ++ "." :: fp) = Some (rev acc ++ ip, fp).
Proof.
  intros I. revert acc. induction I as [| d ip Hd I IH]; intros acc; cbn [app split_point].
  - change (is_dot ".") with true. cbv iota. rewrite app_nil_r. reflexivity.
  - rewrite (digit_not_dot d Hd). unfold digit in Hd. rewrite Hd.
    rewrite IH. cbn [rev]. rewrite <- app_assoc. reflexivity.
Qed.

Lemma float_of_number (sg ip fp : list ascii) :
  sg = [] \/ sg = ["+"] \/ sg = ["-"] ->
  Forall digit ip -> Forall digit fp -> fp <> [] ->
  float_of_match (sg ++ ip ++ "." :: fp)
  = Py.Returned (decimal_value (negative_sign sg) ip fp).
Proof.
  intros S I F N. unfold float_of_match.
  assert (E : strip_sign (sg ++ ip ++ "." :: fp)
              = (negative_sign sg, ip ++ "." :: fp)).
  { destruct S as [-> | [-> | ->]]; [| reflexivity | reflexivity].
    cbn [app negative_sign]. destruct ip as [| d ip]; [reflexivity|].
    inversion I; subst. cbn [app strip_sign].
    rewrite digit_not_sign by assumption. reflexivity. }
  rewrite E. rewrite (split_point_digits [] ip fp I). cbn [rev app].
  assert (Fb : forallb is_digit fp = true) by (apply forallb_forall, Forall_forall; exact F).
  rewrite Fb. destruct fp as [| f fp]; [contradiction | reflexivity].
Qed.

(** Characters that belong to no number are passed over. *)
Lemma match_at_plain (c : ascii) (s : list ascii) :
  plain c = true -> Re.match_at coordinate_pattern (c :: s) = None.
Proof.
  intros P. destruct (plain_inv c P) as (Hd & Hs & Hp & Hdd).
  destruct (Re.match_at coordinate_pattern (c :: s)) as [rest |] eqn:E; [| reflexivity].
  exfalso. destruct (match_at_shape _ _ E) as (m & Em & _ & [D | [N R]]).
  - destruct (decimal_head m D) as (c' & m' & -> & H). inversion Em; subst c'.
    destruct H as [H | [H | H]]; congruence.
  - destruct m as [| c' m']; [contradiction|]. inversion Em; subst c'.
    inversion R; subst. contradiction.
Qed.

Lemma findall_skip_plain (pre s : list ascii) :
  Forall (fun c => plain c = true) pre ->
  forall fuel, (List.length (pre ++ s) < fuel)%nat ->
  exists fuel', (List.length s < fuel')%nat /\
    Re.findall_from fuel coordinate_pattern (pre ++ s)
    = Re.findall_from fuel' coordinate_pattern s.
Proof.
  intros P. induction P as [| c pre Hc P IH]; intros fuel Hf; cbn [app] in *.
  - exists fuel. split; [exact Hf | reflexivity].
  - destruct fuel as [| fuel]; [lia|].
    destruct (IH fuel) as (fuel' & Hf' & E); [simpl in Hf; lia|].
    exists fuel'. split; [exact Hf'|].
    cbn [Re.findall_from]. rewrite (match_at_plain c _ Hc). exact E.
Qed.

Lemma findall_take_number (sg ip fp tail : list ascii) :
  sg = [] \/ sg = ["+"] \/ sg = ["-"] ->
  Forall digit ip -> Forall digit fp -> fp <> [] ->
  match tail with c :: _ => is_digit c = false | [] => True end ->
  forall fuel, (List.length ((sg ++ ip ++ "." :: fp) ++ tail) < fuel)%nat ->
  exists fuel', (List.length tail < fuel')%nat /\
    Re.findall_from fuel coordinate_pattern ((sg ++ ip ++ "." :: fp) ++ tail)
    = (sg ++ ip ++ "." :: fp) :: Re.findall_from fuel' coordinate_pattern tail.
Proof.
  intros S I F N T fuel Hf. destruct fuel as [| fuel]; [lia|].
  exists fuel. split; [rewrite !length_app in Hf; simpl in Hf; lia|].
  apply findall_from_match; [| apply number_matched; assumption].
  destruct sg; [destruct ip|]; discriminate.
Qed.

End LatLongFacts.

Section LatLongClaims.
Local Open Scope char_scope.
Import Cli.
Lemma lat_long_bad (data : list ascii) :
  ~ In "." data \/ In "d" data -> exists e, lat_long data = Py.Raised e.
Proof.
  intros H. unfold lat_long, Re.findall.
  destruct (in_dec ascii_dec "d" data) as [Hd | Hd].
  - destruct (findall_has_d_run (S (List.length data)) data ltac:(lia) Hd)
      as (m & I & R).
    pose proof (float_of_d_run m R) as Fm.
    destruct (Re.findall_from (S (List.length data)) coordinate_pattern data)
      as [| x [| y [| z l]]].
    + contradiction.
    + eexists; reflexivity.
    + destruct I as [-> | [-> | []]].
      * rewrite Fm. eexists; reflexivity.
      * destruct (float_of_match x); cbn [Py.bind]; [rewrite Fm|];
          eexists; reflexivity.
    + eexists; reflexivity.
  - destruct H as [Hp | Hd']; [| contradiction].
    rewrite (findall_nothing _ data Hp Hd). eexists; reflexivity.
Qed.

(** A corner text that holds no point, or holds the letter d, is rejected:
    without a point or a d nothing is found and the unpacking raises, and a
    d is found as a match of its own that is no number. *)
Theorem lat_long_rejects (data : list ascii) :
  (~ In "." data \/ In "d" data -> exists e, lat_long data = Py.Raised e) /\
  (~ In "." data -> ~ In "d" data ->
   lat_long data = Py.Raised "not enough values to unpack").
Proof.
  split; [apply lat_long_bad|].
  intros Hp Hd. unfold lat_long, Re.findall.
  rewrite (findall_nothing _ data Hp Hd). reflexivity.
Qed.

(** Two numbers written with a decimal point, with anything around and
    between them that holds no digit, sign, point or d, and something
    between them, are read as the latitude and the longitude. *)
Theorem lat_long_reads
    (pre sep post sga ipa fpa sgb ipb fpb : list ascii) :
  Forall (fun c => plain c = true) pre ->
  Forall (fun c => plain c = true) sep -> sep <> [] ->
  Forall (fun c => plain c = true) post ->
  sga = [] \/ sga = ["+"] \/ sga = ["-"] ->
  Forall (fun c => is_digit c = true) ipa ->
  Forall (fun c => is_digit c = true) fpa -> fpa <> [] ->
  sgb = [] \/ sgb = ["+"] \/ sgb = ["-"] ->
  Forall (fun c => is_digit c = true) ipb ->
  Forall (fun c => is_digit c = true) fpb -> fpb <> [] ->
  lat_long (pre ++ (sga ++ ipa ++ "." :: fpa) ++ sep
              ++ (sgb ++ ipb ++ "." :: fpb) ++ post)
  = Py.Returned (decimal_value (negative_sign sga) ipa fpa,
                 decimal_value (negative_sign sgb) ipb fpb).
Proof.
  intros Ppre Psep Nsep Ppost Sa Ia Fa Na Sb Ib Fb Nb.
  assert (Hsep : match sep ++ (sgb ++ ipb ++ "." :: fpb) ++ post with
                 | c :: _ => is_digit c = false | [] => True end).
  { destruct sep as [| c sep]; [contradiction|]. inversion Psep; subst.
    apply (plain_inv c). assumption. }
  assert (Hpost : match post ++ [] with
                  | c :: _ => is_digit c = false | [] => True end).
  { destruct post as [| c post]; [exact I|]. inversion Ppost; subst.
    apply (plain_inv c). assumption. }
  unfold lat_long, Re.findall.
  destruct (findall_skip_plain pre
              ((sga ++ ipa ++ "." :: fpa) ++ sep ++ (sgb ++ ipb ++ "." :: fpb) ++ post)
              Ppre _ (Nat.lt_succ_diag_r _))
    as (f1 & H1 & ->).
  destruct (findall_take_number sga ipa fpa
              (sep ++ (sgb ++ ipb ++ "." :: fpb) ++ post) Sa Ia Fa Na Hsep f1 H1)
    as (f2 & H2 & ->).
  destruct (findall_skip_plain sep ((sgb ++ ipb ++ "." :: fpb) ++ post) Psep f2 H2)
    as (f3 & H3 & ->).
  revert H3. rewrite <- (app_nil_r post) at 1 2. intros H3.
  destruct (findall_take_number sgb ipb fpb (post ++ []) Sb Ib Fb Nb Hpost f3 H3)
    as (f4 & H4 & ->).
  destruct (findall_skip_plain post [] Ppost f4 H4) as (f5 & H5 & ->).
  rewrite findall_from_nil.
  rewrite !float_of_number by assumption. reflexivity.
Qed.


(** A corner text that is rejected, a zoom that is no integer or a negative
    zoom end the program with status 1, whatever the server and the encoder
    would answer. *)
Theorem input_errors_exit_1
    (project : Q -> Q -> Z -> Q * Q) (w : World)
    (top_left bot_right : list ascii) (zoom_arg : Py.outcome Z) :
  (~ In "." top_left \/ In "d" top_left) \/
  (~ In "." bot_right \/ In "d" bot_right) \/
  (exists e, zoom_arg = Py.Raised e) \/
  (exists zoom, zoom_arg = Py.Returned zoom /\ zoom < 0) ->
  snd (main_cli project w top_left bot_right zoom_arg) = 1.
Proof.
  intros H. unfold main_cli.
  destruct H as [H | [H | [[e ->] | (zoom & -> & Hz)]]].
  - destruct (lat_long_bad top_left H) as [e ->]. reflexivity.
  - destruct (lat_long_bad bot_right H) as [e ->].
    destruct (lat_long top_left) as [[lat1 lon1] | e1]; reflexivity.
  - destruct (lat_long top_left) as [[lat1 lon1] | e1]; [| reflexivity].
    destruct (lat_long bot_right) as [[lat2 lon2] | e2]; reflexivity.
  - destruct (lat_long top_left) as [[lat1 lon1] | e1]; [| reflexivity].
    destruct (lat_long bot_right) as [[lat2 lon2] | e2]; [| reflexivity].
    cbn [Py.bind]. destruct (Z.ltb_spec zoom 0); [reflexivity | lia].
Qed.

End LatLongClaims.

(** * The further properties at work *)

Section Witnesses.

Ltac close :=
  solve [ lia | reflexivity | discriminate | simpl; auto
        | vm_compute; split; [discriminate | reflexivity] ].

Lemma tiles_write_disjoint_witness :
  in_rect (dest_rect 281 281 (place Stub.two_by_two 0 0)) 5 5 /\
  ~ in_rect (dest_rect 281 281 (place Stub.two_by_two 1 0)) 5 5.
Proof.
  assert (A : in_rect (dest_rect 281 281 (place Stub.two_by_two 0 0)) 5 5)
    by (unfold in_rect; vm_compute; repeat split; discriminate).
  split; [exact A|].
  refine (tiles_write_disjoint (1 # 2) (1 # 2) (8 # 5) (8 # 5) 256 256 3 _ _
            [281; 281; 3] 0 0 1 0 5 5 _ _ _ _ _ _ A); close.
Defined.

Lemma canvas_covered_witness :
  in_rect (dest_rect 281 281 (place Stub.two_by_two 1 1)) 200 200.
Proof.
  refine (proj2 (proj2 (canvas_covered (1 # 2) (1 # 2) (8 # 5) (8 # 5) 256 256 3
                          _ _ 200 200 _ _ _ _ _ _))); close.
Defined.

Lemma canvas_within_tile_block_witness :
  (Z.of_nat (List.length (tile_range_x Stub.two_by_two)) - 2) * 256
    < img_w Stub.two_by_two
    < Z.of_nat (List.length (tile_range_x Stub.two_by_two)) * 256.
Proof.
  refine (proj1 (proj2 (proj2
    (canvas_within_tile_block (1 # 2) (1 # 2) (8 # 5) (8 # 5) 256 256 3
       _ _ _ _ _ _)))); close.
Defined.

Lemma copy_aligned_witness :
  y0 (dest_rect 281 281 (place Stub.two_by_two 1 1))
    - y0 (crop_rect 256 256 (place Stub.two_by_two 1 1))
  = 1 * 256 - 128.
Proof.
  refine (proj1 (copy_aligned (1 # 2) (1 # 2) (8 # 5) (8 # 5) 256 256 3
                   _ _ 1 1 _ _ _ _ _)); close.
Defined.

Lemma run_invariant_witness :
  exists r,
    download_map_region Stub.colour (1 # 2) (1 # 2) (8 # 5) (8 # 5) 1
      = Py.Returned r /\
    Forall (inside_canvas 281 281) (written (run_state r)).
Proof.
  eexists. split; [reflexivity|].
  exact (proj1 (run_invariant Stub.colour (1 # 2) (1 # 2) (8 # 5) (8 # 5) 1 _ eq_refl)).
Defined.

Lemma all_tiles_reported_witness :
  exists r,
    download_map_region Stub.colour (1 # 2) (1 # 2) (8 # 5) (8 # 5) 1
      = Py.Returned r /\
    List.length (bar_updates (run_state r)) = 4%nat.
Proof.
  destruct (all_tiles_reported Stub.colour (1 # 2) (1 # 2) (8 # 5) (8 # 5) 1
              256 256 3) as (r & E & B & _); try close.
  - intros tx ty _ _. exists 200. reflexivity.
  - exists r. split; [exact E | exact B].
Defined.

Lemma grey_tile_not_copied_witness :
  copy_tile [281; 281; 1] [256; 256] (place Servers.two_by_two_grey 0 0)
  = Py.Raised "could not broadcast input array".
Proof.
  refine (grey_tile_not_copied (1 # 2) (1 # 2) (8 # 5) (8 # 5) 256 256 1
            _ _ _ _ _ 0 0 _ _ _); try close.
  left. vm_compute. discriminate.
Defined.

Lemma probe_fallback_leaves_canvas_blank_witness :
  exists r,
    download_map_region Servers.first_tile_missing (1 # 2) (1 # 2) (8 # 5) (8 # 5) 1
      = Py.Returned r /\
    written (run_state r) = [].
Proof.
  eexists. split; [reflexivity|].
  refine (proj2 (proj2 (probe_fallback_leaves_canvas_blank
            Servers.first_tile_missing (1 # 2) (1 # 2) (8 # 5) (8 # 5) 1 404 _
            eq_refl _ eq_refl))).
  intros tx ty st tile. unfold Servers.first_tile_missing, get.
  destruct ((tx =? 0) && (ty =? 0)); intros E; inversion E.
  exists 256, 256, 3. split; [reflexivity | discriminate].
Defined.

End Witnesses.

Section WitnessesReal.
Local Open Scope R_scope.

Lemma tile_column_range_witness :
  RealPy.int (fst (Projection.lat_lon_to_tile_coords 0 180
                     (IZR (Projection.scale 3)))) = (2 ^ 3)%Z.
Proof.
  exact (proj2 (tile_column_range 0 180 3 ltac:(lia) ltac:(lra)) eq_refl).
Defined.

End WitnessesReal.

Section WitnessesText.
Local Open Scope char_scope.
Import Cli.

Lemma lat_long_rejects_witness :
  lat_long (list_ascii_of_string "50,-66")
  = Py.Raised "not enough values to unpack".
Proof.
  apply (proj2 (lat_long_rejects (list_ascii_of_string "50,-66")));
    simpl; intuition discriminate.
Defined.

Lemma lat_long_reads_witness :
  lat_long (list_ascii_of_string "50.048426,-66.813065")
  = Py.Returned
      (decimal_value false (list_ascii_of_string "50") (list_ascii_of_string "048426"),
       decimal_value true (list_ascii_of_string "66") (list_ascii_of_string "813065")).
Proof.
  refine (lat_long_reads [] [","] [] []
            (list_ascii_of_string "50") (list_ascii_of_string "048426")
            ["-"] (list_ascii_of_string "66") (list_ascii_of_string "813065")
            _ _ _ _ _ _ _ _ _ _ _ _);
    try solve [ repeat constructor | discriminate | auto ].
Defined.

Lemma input_errors_exit_1_witness :
  snd (main_cli (fun _ _ _ => (0%Q, 0%Q)) Stub.colour
         (list_ascii_of_string "50,-66") (list_ascii_of_string "50.0,-66.0")
         (Py.Returned 14)) = 1.
Proof.
  apply input_errors_exit_1. left. left. simpl. intuition discriminate.
Defined.

End WitnessesText.
